(** * dvc-data command line: trees, patches and merges

    A shallow embedding of [src/dvc_data/cli.py].  Python dictionaries are
    finite maps ([gmap]), tuples of path segments are lists of strings,
    exceptions are a result type, and the commands run in a small
    state-and-exception monad over the part of the world they touch: the
    object database, the local file system and the standard streams. *)

From Stdlib Require Import String Ascii ZArith.
From stdpp Require Import gmap strings list fin_maps sorting pretty.

Open Scope string_scope.

(** ** Python string helpers *)

Module PyStr.

(** [str.split(sep)] for a one-character separator.  The result is never
    the empty list: splitting the empty string gives one empty segment. *)
Fixpoint split (sep : ascii) (s : string) : list string :=
  match s with
  | EmptyString => [EmptyString]
  | String c r =>
      if Ascii.eqb c sep then EmptyString :: split sep r
      else match split sep r with
           | h :: t => String c h :: t
           | [] => [String c EmptyString]
           end
  end.

(** [str.isspace] on the code points below 256, one character per code
    point: tab, line feed, vertical tab, form feed, carriage return, the
    four separators 28..31, the blank, next line (133) and the no-break
    space (160). *)
Definition isspace (c : ascii) : bool :=
  let n := nat_of_ascii c in
  ((9 <=? n)%nat && (n <=? 13)%nat) || ((28 <=? n)%nat && (n <=? 32)%nat)
  || (n =? 133)%nat || (n =? 160)%nat.

Fixpoint lstrip (s : string) : string :=
  match s with
  | EmptyString => EmptyString
  | String c r => if isspace c then lstrip r else s
  end.

Fixpoint rstrip (s : string) : string :=
  match s with
  | EmptyString => EmptyString
  | String c r =>
      match rstrip r with
      | EmptyString => if isspace c then EmptyString else String c EmptyString
      | r' => String c r'
      end
  end.

(** [str.strip()] *)
Definition strip (s : string) : string := rstrip (lstrip s).

(** [str.startswith] *)
Definition startswith (s p : string) : bool := String.prefix p s.

Fixpoint endswith_char (s : string) (c : ascii) : bool :=
  match s with
  | EmptyString => false
  | String a EmptyString => Ascii.eqb a c
  | String _ r => endswith_char r c
  end.

(** The loop body of [posixpath.join]: an absolute component restarts the
    path, otherwise it is appended after a single separator. *)
Definition join_step (path b : string) : string :=
  if startswith b "/" then b
  else if (String.eqb path "") || endswith_char path "/" then path ++ b
  else path ++ "/" ++ b.

(** [posixpath.join] applied to the unpacked key: the call needs at least
    one argument. *)
Definition posixpath_join (key : list string) : option string :=
  match key with
  | [] => None
  | a :: p => Some (fold_left join_step p a)
  end.

End PyStr.

(** ** Data model *)

(** A path key: the tuple of path segments. *)
Abbreviation Key := (list string).

Record HashInfo := mkHashInfo { hname : string; hvalue : string }.

Record Meta := mkMeta { size : N; isexec : bool }.

#[global] Instance HashInfo_eq_dec : EqDecision HashInfo.
Proof. solve_decision. Defined.

#[global] Instance Meta_eq_dec : EqDecision Meta.
Proof. solve_decision. Defined.

(** The value a tree holds under a key: [(meta, hash_info)], where the
    metadata may be [None]. *)
Abbreviation Entry := (option Meta * HashInfo)%type.

(** A [Tree] object.  [_dict] is the authoritative mapping.  [__dict__]
    holds the cached indexes of the instance dictionary, each under the
    attribute name it is kept by and as the mapping it was built from;
    [cli.py] pops the one named trie.  [hash_info] is the digest the object
    currently carries, and [fs_path] the entries serialised at [tree.path]
    on [tree.fs] by the last [digest()] (or read by [load]). *)
Record Tree := mkTree {
  _dict : gmap Key Entry;
  __dict__ : gmap string (gmap Key Entry);
  hash_info : option HashInfo;
  fs_path : option (gmap Key Entry)
}.

(** What the object database holds under an oid. *)
Inductive Obj :=
| FileObj (content : string)
| TreeObj (entries : gmap Key Entry).

(** A file of the local file system: its metadata and its content. *)
Abbreviation LocalFile := (Meta * string)%type.

(** ** Exceptions and the command monad *)

Inductive PyExc :=
| Exit (code : Z)
| Abort
| FileExistsError (filename : string)
| FileNotFoundError (filename : string)
| KeyError (k : string)
| ValueError (msg : string)
| TypeError
| AttributeError
| AssertionError
| ObjectFormatError
| NotARepo.

Inductive Res (A : Type) :=
| Ok (a : A)
| Raise (e : PyExc).
Arguments Ok {A} a.
Arguments Raise {A} e.

(** A computation over a state [S] that returns or raises; the state at the
    moment of a [Raise] is kept, as a Python exception keeps every mutation
    done before it. *)
Definition M (S A : Type) : Type := S -> Res A * S.

Definition ret {S A} (a : A) : M S A := fun s => (Ok a, s).

Definition raise {S A} (e : PyExc) : M S A := fun s => (Raise e, s).

Definition bind {S A B} (m : M S A) (k : A -> M S B) : M S B :=
  fun s => match m s with
           | (Ok a, s') => k a s'
           | (Raise e, s') => (Raise e, s')
           end.

Definition gets {S A} (f : S -> A) : M S A := fun s => (Ok (f s), s).

Definition modify {S} (f : S -> S) : M S unit := fun s => (Ok tt, f s).

(** [try: m except <handled>: h] *)
Definition try_except {S A} (m : M S A) (h : PyExc -> option (M S A)) : M S A :=
  fun s => match m s with
           | (Ok a, s') => (Ok a, s')
           | (Raise e, s') =>
               match h e with
               | Some k => k s'
               | None => (Raise e, s')
               end
           end.

Declare Scope cmd_scope.
Delimit Scope cmd_scope with cmd.
Notation "x <- m ;; k" := (bind m (fun x => k))
  (at level 100, m at next level, right associativity) : cmd_scope.
Notation "m ;;; k" := (bind m (fun _ => k))
  (at level 100, right associativity) : cmd_scope.
Open Scope cmd_scope.

(** [for x in l: body x] *)
Fixpoint for_each {S A} (l : list A) (body : A -> M S unit) : M S unit :=
  match l with
  | [] => ret tt
  | x :: r => body x ;;; for_each r body
  end.

(** A line written by [typer.echo]. *)
Inductive Line :=
| Plain (s : string)
| NotAValidOid (oid : string)
| AmbiguousOid (oid : string)
| ExcLine (e : PyExc)
| ObjLine (h : option HashInfo).

(** The part of the world the commands act on. *)
Record World := mkWorld {
  repo : bool;
  odb : gmap string Obj;
  local_fs : gmap string LocalFile;
  stdin : string;
  stdout : list Line;
  stderr : list Line
}.

(** The frame of [update_tree]: the world and the tree bound to [obj],
    which [apply_op] mutates in place. *)
Record Frame := mkFrame {
  world : World;
  obj : Tree
}.

Definition set_odb (f : gmap string Obj -> gmap string Obj) (w : World) : World :=
  mkWorld (repo w) (f (odb w)) (local_fs w) (stdin w) (stdout w) (stderr w).

Definition set_stdin (i : string) (w : World) : World :=
  mkWorld (repo w) (odb w) (local_fs w) i (stdout w) (stderr w).

Definition set_obj (f : Tree -> Tree) (s : Frame) : Frame :=
  mkFrame (world s) (f (obj s)).

Definition add_stdout (ls : list Line) (w : World) : World :=
  mkWorld (repo w) (odb w) (local_fs w) (stdin w) (stdout w ++ ls) (stderr w).

Definition add_stderr (ls : list Line) (w : World) : World :=
  mkWorld (repo w) (odb w) (local_fs w) (stdin w) (stdout w) (stderr w ++ ls).

(** [typer.echo(line)] and [typer.echo(line, err=True)] *)
Definition echo (l : Line) : M World unit := modify (add_stdout [l]).

Definition echo_err (l : Line) : M World unit := modify (add_stderr [l]).

(** [sys.stdin.read()]: returns what is left on the stream and drains it. *)
Definition stdin_read : M World string :=
  i <- gets stdin ;; modify (set_stdin "") ;;; ret i.

(** Run a world computation inside a frame, leaving [obj] alone. *)
Definition liftW {A} (m : M World A) : M Frame A :=
  fun s => let '(r, w') := m (world s) in (r, mkFrame w' (obj s)).

(** Run a frame computation with [obj] bound to [t]; the binding goes out
    of scope when the computation ends. *)
Definition with_obj {A} (t : Tree) (m : M Frame A) : M World A :=
  fun w => let '(r, s') := m (mkFrame w t) in (r, world s').

(** ** Diff results *)

(** One side of a change.  [meta] and [oid] are [None] on the side a change
    does not apply to. *)
Record TreeEntry := mkTreeEntry {
  in_cache : bool;
  key : Key;
  meta : option Meta;
  oid : option HashInfo
}.

Record Change := mkChange { old : TreeEntry; new : TreeEntry }.

Record DiffResult := mkDiffResult {
  added : list Change;
  deleted : list Change;
  modified : list Change;
  unchanged : list Change
}.

(** The constant [ROOT] of [dvc_data.diff] is not part of the sources at
    hand.  [_prepare_info] shows the label ROOT for the key that joins to
    the empty string, and a join needs at least one segment: the root key
    is the key of one empty segment.  The empty tuple is not it: joining
    the empty tuple raises. *)
Definition ROOT : Key := [""].

(** What [load] returns: a tree, or a plain hashed file. *)
Inductive Loaded :=
| LTree (t : Tree)
| LFile (h : HashInfo).

(** ** The [Tree] interface *)

Module TreeOps.

(** [Tree()] *)
Definition empty : Tree := mkTree ∅ ∅ None None.

(** Modelled from the spec: [Tree.add] lives in [dvc_data.objects.tree],
    which is not part of the sources at hand.  It inserts or overwrites the
    entry at [key], and invalidates any cached index and any previously
    finalized digest. *)
Definition add (k : Key) (m : option Meta) (h : HashInfo) (t : Tree) : Tree :=
  mkTree (<[k := (m, h)]> (_dict t)) ∅ None None.

(** Modelled from the spec: [Tree.get] is not part of the sources at hand;
    it fails with a not-found error when [key] is absent. *)
Definition get (k : Key) (t : Tree) : Res Entry :=
  match _dict t !! k with
  | Some e => Ok e
  | None => Raise (KeyError (String.concat "/" k))
  end.

(** Modelled from the spec: the index accessor is not part of the sources
    at hand.  The index is a cache that is rebuilt from the entries on the
    next query after an invalidation; a cached index is returned as it is.
    [attr] is the attribute name under which the class keeps the cache,
    which the sources at hand do not show. *)
Definition query_trie (attr : string) (t : Tree) : gmap Key Entry * Tree :=
  match __dict__ t !! attr with
  | Some c => (c, t)
  | None =>
      (_dict t,
       mkTree (_dict t) (<[attr := _dict t]> (__dict__ t)) (hash_info t) (fs_path t))
  end.

(** [obj._dict.pop(keys)]: raises [KeyError] on a missing key and touches
    nothing but the dictionary. *)
Definition dict_pop (k : Key) (t : Tree) : Res Tree :=
  match _dict t !! k with
  | Some _ => Ok (mkTree (delete k (_dict t)) (__dict__ t) (hash_info t) (fs_path t))
  | None => Raise (KeyError (String.concat "/" k))
  end.

(** [obj.__dict__.pop("trie", None)]: drops the entry named trie if there
    is one, and no other. *)
Definition drop_trie (t : Tree) : Tree :=
  mkTree (_dict t) (delete "trie" (__dict__ t)) (hash_info t) (fs_path t).

End TreeOps.

(** ** Patch records *)

(** One operation record of a patch: a JSON object with string fields, as
    the command-line options build it.  A patch file can also hold values
    that are no strings; such records are outside this model. *)
Abbreviation application := (gmap string string).

(** The value click hands over for [--patch-file]: a plain string, or a
    path object when a caller passes one. *)
Inductive PathArg :=
| ArgStr (s : string)
| ArgPath (p : string).

(** A value of a repeated command-line option: a [(path, to)] tuple or a
    single string. *)
Inductive Item :=
| ItemPair (path to : string)
| ItemStr (s : string).

(** Truth value of an optional string, as in [if op and path]. *)
Definition truthy (o : option string) : bool :=
  match o with
  | Some s => negb (String.eqb s "")
  | None => false
  end.

(** [d[k]] on a dictionary with string keys. *)
Definition getitem {S} (d : application) (k : string) : M S string :=
  match d !! k with
  | Some v => ret v
  | None => raise (KeyError k)
  end.

Definition lift_res {S A} (r : Res A) : M S A := fun s => (r, s).

Section Commands.

(** The hashing subsystem, the diff engine, the JSON reader and the merge
    of two trees are collaborators that the commands only call.  [merge]
    takes the ancestor and the digests of the two trees; the database it is
    handed is the one of the world.  It lives in [dvc_data.objects.tree],
    which is not part of the sources at hand: it is any computation that
    returns a tree or raises. *)
Variable file_md5 : string -> string.
Variable tree_md5 : gmap Key Entry -> string.
Variable _diff : Tree -> Tree -> gmap string Obj -> DiffResult.
Variable json_loads : string -> option (list application).
Variable merge :
  option HashInfo -> option HashInfo -> option HashInfo -> M World Tree.

Definition tree_hash_info (d : gmap Key Entry) : HashInfo :=
  mkHashInfo "md5" (tree_md5 d).

(** Modelled from the spec: [Tree.digest] is not part of the sources at
    hand.  It recomputes and caches the tree's own digest from the current
    entries, a pure function of them, and marks the tree digest-valid. *)
Definition digest (t : Tree) : Tree :=
  mkTree (_dict t) (__dict__ t) (Some (tree_hash_info (_dict t))) (Some (_dict t)).

(** A tree whose carried digest and serialised form are those of its
    current entries. *)
Definition digest_valid (t : Tree) : Prop :=
  hash_info t = Some (tree_hash_info (_dict t)) /\ fs_path t = Some (_dict t).

(** *** The object database *)

(** Modelled from the spec: [exists_prefix] belongs to the object database,
    which is not part of the sources at hand.  Short-digest resolution
    fails as not found ([KeyError]) if no stored digest matches the prefix,
    as ambiguous ([ValueError]) if several do, and returns the digest
    otherwise. *)
Definition exists_prefix (short : string) : M World string :=
  store <- gets odb ;;
  match filter (fun o : string => PyStr.startswith o short) (elements (dom store)) with
  | [] => raise (KeyError short)
  | [o] => ret o
  | _ => raise (ValueError short)
  end.

(** Modelled from the spec: [odb.get] is not part of the sources at hand;
    a missing object is a not-found error. *)
Definition odb_get (o : string) : M World HashInfo :=
  store <- gets odb ;;
  match store !! o with
  | Some _ => ret (mkHashInfo "md5" o)
  | None => raise (FileNotFoundError o)
  end.

(** Modelled from the spec: [load] is not part of the sources at hand.  It
    fetches the content stored for the digest; a stored tree whose digest
    does not match its content is an [ObjectFormatError]. *)
Definition load (h : HashInfo) : M World Loaded :=
  store <- gets odb ;;
  match store !! hvalue h with
  | None => raise (FileNotFoundError (hvalue h))
  | Some (FileObj _) => ret (LFile h)
  | Some (TreeObj d) =>
      if decide (tree_hash_info d = h)
      then ret (LTree (mkTree d ∅ (Some h) (Some d)))
      else raise ObjectFormatError
  end.

(** Modelled from the spec: [odb.add(path, fs, oid)] on the local file
    system is not part of the sources at hand; it stores the content found
    at [path] under [oid]. *)
Definition odb_add_file (path o : string) : M World unit :=
  fs <- gets local_fs ;;
  match fs !! path with
  | Some (_, content) => modify (set_odb (insert o (FileObj content)))
  | None => raise (FileNotFoundError path)
  end.

(** Modelled from the spec: [odb.add(tree.path, tree.fs, tree.oid)] is not
    part of the sources at hand; it stores the serialised tree found at
    [tree.path] under [tree.oid].  A tree that was never digested has
    neither. *)
Definition odb_add_tree (t : Tree) : M World unit :=
  match hash_info t, fs_path t with
  | Some h, Some d => modify (set_odb (insert (hvalue h) (TreeObj d)))
  | _, _ => raise AttributeError
  end.

(** Modelled from the spec: [_build] lives in [dvc_data.build], which is
    not part of the sources at hand.  It describes the external content at
    [path]: its metadata and the digest of its content. *)
Definition _build (path : string) : M World (Meta * HashInfo) :=
  fs <- gets local_fs ;;
  match fs !! path with
  | Some (m, content) => ret (m, mkHashInfo "md5" (file_md5 content))
  | None => raise (FileNotFoundError path)
  end.

(** *** [get_odb] and [from_shortoid] *)

Definition get_odb : M World unit :=
  r <- gets repo ;;
  if r then ret tt else (echo_err (ExcLine NotARepo) ;;; raise Abort).

Definition from_shortoid (o : string) : M World string :=
  o <- (if String.eqb o "-" then (i <- stdin_read ;; ret (PyStr.strip i)) else ret o) ;;
  try_except (exists_prefix o)
    (fun exc => match exc with
                | KeyError _ => Some (echo_err (NotAValidOid o) ;;; raise (Exit 1))
                | ValueError _ => Some (echo_err (AmbiguousOid o) ;;; raise (Exit 1))
                | _ => None
                end).

(** The short oid [from_shortoid] resolves: the argument, or the stripped
    standard input when the argument is a dash. *)
Definition requested_oid (w : World) (o : string) : string :=
  if String.eqb o "-" then PyStr.strip (stdin w) else o.

(** *** The merge of the spec *)

(** Modelled from the spec: the construction of the merge result is part
    of [dvc_data.objects.tree], which is not part of the sources at hand.
    An added or modified entry of the side of tree b is written over the
    result. *)
Definition apply_change (t : Tree) (c : Change) : Tree :=
  match oid (new c) with
  | Some h => TreeOps.add (key (new c)) (meta (new c)) h t
  | None => t
  end.

(** Modelled from the spec: the merge result starts from the entries of
    tree a, then takes every added and every modified entry from the side
    of tree b; it is digest-invalid until finalized. *)
Definition merged (ta tb : Tree) (store : gmap string Obj) : Tree :=
  let d := _diff ta tb store in
  fold_left apply_change (added d ++ modified d)
    (mkTree (_dict ta) ∅ None None).

(** Modelled from the spec: one [merge] the commands can be run with.  It
    loads the two trees named by their digests and builds the merge
    result; the ancestor is not used. *)
Definition merge_of_spec (ancestor a b : option HashInfo) : M World Tree :=
  match a, b with
  | Some ha, Some hb =>
      la <- load ha ;;
      lb <- load hb ;;
      match la, lb with
      | LTree ta, LTree tb =>
          store <- gets odb ;;
          ret (merged ta tb store)
      | _, _ => raise AssertionError
      end
  | _, _ => raise AssertionError
  end.

(** *** [merge_tree] *)

(** The list comprehension of [merge_tree]: the joined key of every
    modified change whose key is not [ROOT].  Joining an empty key is a
    call of [posixpath.join] without arguments. *)
Fixpoint conflict_paths (l : list Change) : Res (list string) :=
  match l with
  | [] => Ok []
  | change :: r =>
      if decide (key (old change) = ROOT) then conflict_paths r
      else match PyStr.posixpath_join (key (old change)) with
           | None => Raise TypeError
           | Some p =>
               match conflict_paths r with
               | Ok ps => Ok (p :: ps)
               | Raise e => Raise e
               end
           end
  end.

Definition detect_conflicts (t1 t2 : Tree) : M World unit :=
  store <- gets odb ;;
  let d := _diff t1 t2 store in
  files <- lift_res (conflict_paths (modified d)) ;;
  match files with
  | [] => ret tt
  | _ =>
      echo (Plain "Following files in conflicts:") ;;;
      for_each files (fun file => echo (Plain file)) ;;;
      raise (Exit 1)
  end.

Definition merge_tree (oid1 oid2 : string) (force : bool) : M World unit :=
  get_odb ;;;
  oid1 <- from_shortoid oid1 ;;
  oid2 <- from_shortoid oid2 ;;
  h1 <- odb_get oid1 ;;
  obj1 <- load h1 ;;
  h2 <- odb_get oid2 ;;
  obj2 <- load h2 ;;
  match obj1, obj2 with
  | LTree t1, LTree t2 =>
      (if negb force then detect_conflicts t1 t2 else ret tt) ;;;
      tree <- merge None (hash_info t1) (hash_info t2) ;;
      let tree := digest tree in
      echo (ObjLine (hash_info tree)) ;;;
      odb_add_tree tree
  | _, _ => raise AssertionError
  end.

(** *** [process_patch] *)

(** [if patch_file:] an absent option and the empty string are false. *)
Definition patch_file_given (patch_file : option PathArg) : option PathArg :=
  match patch_file with
  | Some (ArgStr s) => if String.eqb s "" then None else patch_file
  | _ => patch_file
  end.

Definition path_name (p : PathArg) : string :=
  match p with
  | ArgStr s => s
  | ArgPath s => s
  end.

(** [typer.open_file(name)] followed by [f.read()]: a dash reads the
    standard input. *)
Definition open_read (name : string) : M World string :=
  if String.eqb name "-" then stdin_read
  else
    fs <- gets local_fs ;;
    match fs !! name with
    | Some (_, text) => ret text
    | None => raise (FileNotFoundError name)
    end.

(** The assignment to the record's path inside the loop.  The right-hand
    side is evaluated first: a string has no attribute [parent].  On a
    path object it evaluates, and the target then subscripts the list
    [patch] with the dictionary [appl], which a list refuses. *)
Definition resolve_path (patch_file : PathArg) (patch : list application)
    (appl : application) (path : string) : M World unit :=
  match patch_file with
  | ArgStr _ => raise AttributeError
  | ArgPath _ => raise TypeError
  end.

Definition is_add_or_modify (o : option string) : bool :=
  match o with
  | Some s => String.eqb s "add" || String.eqb s "modify"
  | None => false
  end.

Definition resolve_record (patch_file : PathArg) (patch : list application)
    (appl : application) : M World unit :=
  let op := appl !! "op" in
  let path := appl !! "path" in
  if truthy op && truthy path && is_add_or_modify op
  then resolve_path patch_file patch appl (default "" path)
  else ret tt.

(** The record [{"op": op, **extra}] built for a command-line item. *)
Definition record_of_item (op : string) (item : Item) : application :=
  match item with
  | ItemPair path to => <["to" := to]> (<["path" := path]> {["op" := op]})
  | ItemStr s => <["path" := s]> {["op" := op]}
  end.

Definition records_of_kwargs (kwargs : list (string * list Item)) : list application :=
  flat_map (fun '(op, items) => map (record_of_item op) items) kwargs.

Definition process_patch (patch_file : option PathArg)
    (kwargs : list (string * list Item)) : M World (list application) :=
  patch <- match patch_file_given patch_file with
           | Some pf =>
               text <- open_read (path_name pf) ;;
               match json_loads text with
               | Some patch =>
                   for_each patch (resolve_record pf patch) ;;; ret patch
               | None => raise (ValueError "JSONDecodeError")
               end
           | None => ret []
           end ;;
  ret (patch ++ records_of_kwargs kwargs)%list.

(** *** [apply_op] *)

Definition in_dict (k : Key) (t : Tree) : bool :=
  match _dict t !! k with
  | Some _ => true
  | None => false
  end.

Definition pop_key (k : Key) : M Frame unit :=
  t <- gets obj ;;
  t' <- lift_res (TreeOps.dict_pop k t) ;;
  modify (set_obj (fun _ => t')).

Definition apply_op (application : application) : M Frame unit :=
  match application !! "op" with
  | None => raise AssertionError
  | Some op =>
      path <- getitem application "path" ;;
      let keys := PyStr.split "/" path in
      if String.eqb op "add" || String.eqb op "modify" then
        to <- getitem application "to" ;;
        let new := PyStr.split "/" to in
        t <- gets obj ;;
        if String.eqb op "add" && in_dict new t
        then raise (FileExistsError path)
        else
          built <- liftW (_build path) ;;
          liftW (odb_add_file path (hvalue (snd built))) ;;;
          modify (set_obj (TreeOps.add new (Some (fst built)) (snd built)))
      else
        t <- gets obj ;;
        if negb (in_dict keys t) then raise (FileNotFoundError path)
        else if String.eqb op "test" then ret tt
        else if String.eqb op "remove" then
          pop_key keys ;;;
          modify (set_obj TreeOps.drop_trie)
        else if String.eqb op "copy" || String.eqb op "move" then
          to <- getitem application "to" ;;
          let new := PyStr.split "/" to in
          t <- gets obj ;;
          e <- lift_res (TreeOps.get keys t) ;;
          modify (set_obj (TreeOps.add new (fst e) (snd e))) ;;;
          (if String.eqb op "move" then pop_key keys else ret tt)
        else raise (ValueError "unknown op")
  end.

(** *** [update_tree] *)

(** [except (FileExistsError, FileNotFoundError) as exc] *)
Definition patch_error_handler (exc : PyExc) : option (M Frame unit) :=
  match exc with
  | FileExistsError _ | FileNotFoundError _ =>
      Some (liftW (echo_err (ExcLine exc)) ;;; raise (Exit 1))
  | _ => None
  end.

(** The loop over the patch. *)
Definition apply_patch (patch : list application) : M Frame unit :=
  for_each patch
    (fun application => try_except (apply_op application) patch_error_handler).

(** The loop, then [obj.digest()], the echo of the object and its
    addition to the database. *)
Definition update_tree_body (patch : list application) : M Frame unit :=
  apply_patch patch ;;;
  modify (set_obj digest) ;;;
  t <- gets obj ;;
  liftW (echo (ObjLine (hash_info t))) ;;;
  t <- gets obj ;;
  liftW (odb_add_tree t).

Definition update_tree (o : string) (patch_file : option PathArg)
    (add modify move copy remove test : list Item) : M World unit :=
  get_odb ;;;
  o <- from_shortoid o ;;
  h <- odb_get o ;;
  loaded <- load h ;;
  match loaded with
  | LTree t =>
      patch <- process_patch patch_file
                 [("add", add); ("remove", remove); ("modify", modify);
                  ("copy", copy); ("move", move); ("test", test)] ;;
      with_obj t (update_tree_body patch)
  | LFile _ => raise AssertionError
  end.

(** *** Vocabulary for the merge flow *)

(** The world after a tree with the entries of [t] has been shown and
    stored under the digest of these entries, whatever digest [t] itself
    carries. *)
Definition stored_digested (t : Tree) (w : World) : World :=
  set_odb (insert (tree_md5 (_dict t)) (TreeObj (_dict t)))
    (add_stdout [ObjLine (Some (tree_hash_info (_dict t)))] w).

End Commands.

(** ** Vocabulary of the statements *)

(** The first test of [apply_op]: the op is add or modify. *)
Definition is_add_modify (op : string) : bool :=
  String.eqb op "add" || String.eqb op "modify".

(** A computation that leaves the object database as it found it. *)
Definition keeps_odb {A} (m : M World A) : Prop :=
  forall w r w', m w = (r, w') -> odb w' = odb w.

(** No tree object appears in [m'] that was not already in [m]. *)
Definition no_new_tree (m m' : gmap string Obj) : Prop :=
  forall o d, m' !! o = Some (TreeObj d) -> m !! o = Some (TreeObj d).

(** The stored digests that start with [short], as [exists_prefix]
    enumerates them. *)
Definition matches (store : gmap string Obj) (short : string) : list string :=
  filter (fun o : string => PyStr.startswith o short) (elements (dom store)).

(** [x] is a stored digest that starts with [short]. *)
Definition hit (store : gmap string Obj) (short x : string) : Prop :=
  x ∈ dom store /\ PyStr.startswith x short = true.

(** The world after [from_shortoid] has looked at its argument: a dash
    drains the standard input. *)
Definition after_oid_arg (o : string) (w : World) : World :=
  if String.eqb o "-" then set_stdin "" w else w.

(** The modified changes whose key is not the root, in diff order. *)
Definition conflicting (d : DiffResult) : list Change :=
  filter (fun c : Change => key (old c) <> ROOT) (modified d).

(** The path printed for a change: its old key joined. *)
Definition conflict_path (c : Change) : string :=
  default "" (PyStr.posixpath_join (key (old c))).

Definition conflict_report (d : DiffResult) : list Line :=
  Plain "Following files in conflicts:"
    :: map (fun c => Plain (conflict_path c)) (conflicting d).

(** The exception the path assignment of [process_patch] ends in. *)
Definition resolve_failure (pf : PathArg) : PyExc :=
  match pf with
  | ArgStr _ => AttributeError
  | ArgPath _ => TypeError
  end.


(** ** The diff engine, as the spec describes it *)

(** Lexicographic order on path keys, segment by segment. *)
Fixpoint key_leb (a b : Key) : bool :=
  match a, b with
  | [], _ => true
  | _ :: _, [] => false
  | x :: a', y :: b' =>
      match String.compare x y with
      | Lt => true
      | Gt => false
      | Eq => key_leb a' b'
      end
  end.

Inductive DiffState := Added | Deleted | Modified | Unchanged.

#[global] Instance DiffState_eq_dec : EqDecision DiffState.
Proof. solve_decision. Defined.

(** The classification of a key by the entries the two trees hold for it. *)
Definition classify (o n : option Entry) : DiffState :=
  match o, n with
  | None, Some _ => Added
  | Some _, None => Deleted
  | Some (_, h), Some (_, h') => if decide (h = h') then Unchanged else Modified
  | None, None => Unchanged
  end.

(** One side of a change; the in-cache flag asks the store whether it
    holds the referenced object. *)
Definition diff_side (store : gmap string Obj) (k : Key) (e : option Entry)
    : TreeEntry :=
  match e with
  | Some (m, h) =>
      mkTreeEntry (bool_decide (is_Some (store !! hvalue h))) k m (Some h)
  | None => mkTreeEntry false k None None
  end.

Definition entries_of (t : option Tree) : gmap Key Entry :=
  match t with
  | Some t => _dict t
  | None => ∅
  end.

(** Modelled from the spec: [diff] lives in [dvc_data.diff], which is not
    part of the sources at hand.  It classifies the union of the path keys
    of the two trees, a missing tree having no entries, in sorted key
    order: added (key only in new), deleted (key only in old), modified
    (key in both, digest differs), unchanged (key in both, digest
    equal). *)
Definition diff (old_tree new_tree : option Tree) (store : gmap string Obj)
    : DiffResult :=
  let o := entries_of old_tree in
  let n := entries_of new_tree in
  let keys := merge_sort (fun a b : Key => key_leb a b) (elements (dom o ∪ dom n)) in
  let pick st :=
    map (fun k => mkChange (diff_side store k (o !! k)) (diff_side store k (n !! k)))
      (filter (fun k => classify (o !! k) (n !! k) = st) keys) in
  mkDiffResult (pick Added) (pick Deleted) (pick Modified) (pick Unchanged).

(** ** A small repository to run the commands on *)

Module Demo.

(** Stand-ins for the hashing subsystem and the JSON reader. *)
Definition file_md5 (content : string) : string := "md5-of-" ++ content.

Definition render (kv : Key * Entry) : string :=
  String.concat "/" (fst kv) ++ "=" ++ hvalue (snd (snd kv)).

Definition tree_md5 (d : gmap Key Entry) : string :=
  String.concat "," (map render (map_to_list d)) ++ ".dir".

Definition h (v : string) : HashInfo := mkHashInfo "md5" v.

(** The entry a tree has under [ROOT]: its own digest. *)
Definition root_side (store : gmap string Obj) (t : Tree) : TreeEntry :=
  diff_side store ROOT (option_map (fun d => (None, d)) (hash_info t)).

(** The diff the example repository reports for two stored trees: the
    change of the root entry, modified when the two digests differ, in
    front of the entries the spec's diff classifies. *)
Definition tree_diff (a b : Tree) (store : gmap string Obj) : DiffResult :=
  let d := diff (Some a) (Some b) store in
  let root := mkChange (root_side store a) (root_side store b) in
  if decide (hash_info a = hash_info b)
  then mkDiffResult (added d) (deleted d) (modified d) (root :: unchanged d)
  else mkDiffResult (added d) (deleted d) (root :: modified d) (unchanged d).

(** The merge of the spec, over the entries the spec's diff classifies. *)
Definition merge : option HashInfo -> option HashInfo -> option HashInfo
                   -> M World Tree :=
  merge_of_spec tree_md5 (fun a b => diff (Some a) (Some b)).

(** The trees A and B of the merge scenario: x differs, y is new in B. *)
Definition dA : gmap Key Entry := {[ ["x"] := (None, h "digest1") ]}.

Definition dB : gmap Key Entry :=
  <[ ["y"] := (None, h "digest3") ]> {[ ["x"] := (None, h "digest2") ]}.

Definition oidA : string := tree_md5 dA.

Definition oidB : string := tree_md5 dB.

Definition treeA : Tree := mkTree dA ∅ (Some (h oidA)) (Some dA).

Definition treeB : Tree := mkTree dB ∅ (Some (h oidB)) (Some dB).

(** A repository holding both trees, and a local file foo next to a patch
    file. *)
Definition foo_meta : Meta := mkMeta 3 false.

Definition world : World :=
  mkWorld true (<[oidA := TreeObj dA]> (<[oidB := TreeObj dB]> ∅))
    (<["patch.json" := (mkMeta 40 false, "one add record")]>
       {[ "foo" := (foo_meta, "abc") ]})
    "" [] [].

Definition add_foo : application := record_of_item "add" (ItemPair "foo" "foo").

Definition json_loads (text : string) : option (list application) :=
  if String.eqb text "one add record" then Some [add_foo] else None.

(** The attribute under which the example keeps the index of a tree: a
    name of the class's own, not the one [cli.py] pops. *)
Definition index_attr : string := "_trie".

(** The tree that maps a/b to a digest, with an index cached before the
    patch. *)
Definition d_ab : gmap Key Entry := {[ ["a"; "b"] := (None, h "d1") ]}.

Definition tree_ab : Tree :=
  mkTree d_ab {[ index_attr := d_ab ]} (Some (h (tree_md5 d_ab))) (Some d_ab).

Definition frame_ab : Frame := mkFrame world tree_ab.

Definition move_ab_ac : application := record_of_item "move" (ItemPair "a/b" "a/c").

Definition move_ab_ab : application := record_of_item "move" (ItemPair "a/b" "a/b").

Definition remove_ab : application := record_of_item "remove" (ItemStr "a/b").

Definition test_zz : application := record_of_item "test" (ItemStr "zz").

Definition modify_ab : application := record_of_item "modify" (ItemPair "foo" "a/b").

End Demo.

(** ** Iterator and text helpers of the standard library *)

Module PyIter.

(** [itertools.accumulate] on numbers: the first element, then the running
    totals. *)
Fixpoint accumulate_from (total : N) (l : list N) : list N :=
  match l with
  | [] => []
  | x :: r => (total + x)%N :: accumulate_from (total + x)%N r
  end.

Definition accumulate (l : list N) : list N :=
  match l with
  | [] => []
  | x :: r => x :: accumulate_from x r
  end.

(** [enumerate(l, start)] *)
Fixpoint enumerate {A} (start : nat) (l : list A) : list (nat * A) :=
  match l with
  | [] => []
  | x :: r => (start, x) :: enumerate (S start) r
  end.

(** [deque.append] on a deque bounded by [maxlen]: the element goes to the
    right end and a full deque drops elements from the left. *)
Definition deque_append {A} (maxlen : nat) (d : list A) (x : A) : list A :=
  drop (length (d ++ [x]) - maxlen) (d ++ [x]).

(** [deque(l, maxlen=maxlen)] *)
Definition deque {A} (maxlen : nat) (l : list A) : list A :=
  fold_left (deque_append maxlen) l [].

End PyIter.

Module PyText.

(** [str.endswith] *)
Fixpoint endswith (s suffix : string) : bool :=
  if String.eqb s suffix then true
  else match s with
       | EmptyString => false
       | String _ r => endswith r suffix
       end.

(** The slice [s[:n]] *)
Definition take_chars (n : nat) (s : string) : string := String.substring 0 n s.

End PyText.

(** [[f(x) for x in l]] with a body that may raise *)
Fixpoint map_m {S A B} (f : A -> M S B) (l : list A) : M S (list B) :=
  match l with
  | [] => ret []
  | x :: r => y <- f x ;; ys <- map_m f r ;; ret (y :: ys)
  end.

(** ** The inspection commands *)

(** The oid [_prepare_info] shows: the first nine characters, or the whole
    oid of a directory. *)
Definition shown_oid (value : string) : string :=
  if negb (PyText.endswith value ".dir") then PyText.take_chars 9 value
  else value.

(** [_prepare_info] of the diff command.  Joining an empty key is a call
    without arguments, and an entry without oid has no [value]. *)
Definition _prepare_info (entry : TreeEntry) : Res string :=
  match PyStr.posixpath_join (key entry) with
  | None => Raise TypeError
  | Some joined =>
      let path := if String.eqb joined "" then "ROOT" else joined in
      match oid entry with
      | None => Raise AttributeError
      | Some h =>
          let cache_info := if in_cache entry then "" else ", missing" in
          Ok (path ++ " (" ++ shown_oid (hvalue h) ++ cache_info ++ ")")
      end
  end.

(** [item[0] if item else (0, 0)] on the deque that keeps the last pair of
    the enumerated running totals. *)
Definition count_and_total (sizes : list N) : nat * N :=
  match PyIter.deque 1 (PyIter.enumerate 1 (PyIter.accumulate sizes)) with
  | first :: _ => first
  | [] => (0, 0%N)
  end.

Section Inspect.

(** The verdict of the store's integrity check, the size and the raw bytes
    of a stored object, and the formatting of the summary line belong to
    collaborators. *)
Variable verify : string -> Obj -> bool.
Variable obj_size : Obj -> N.
Variable serialize : gmap Key Entry -> string.
Variable format_count : nat -> N -> string.

(** Modelled from the spec: [odb.all] enumerates the stored digests. *)
Definition odb_all : M World (list string) :=
  store <- gets odb ;; ret (elements (dom store)).

(** Modelled from the spec: [odb.check(oid, check_hash=True)] verifies a
    stored object and raises [ObjectFormatError] when it does not match
    its digest. *)
Definition odb_check (o : string) : M World unit :=
  store <- gets odb ;;
  match store !! o with
  | Some ob => if verify o ob then ret tt else raise ObjectFormatError
  | None => raise (FileNotFoundError o)
  end.

(** [odb.fs.size(odb.oid_to_path(oid))] *)
Definition odb_size (o : string) : M World N :=
  store <- gets odb ;;
  match store !! o with
  | Some ob => ret (obj_size ob)
  | None => raise (FileNotFoundError o)
  end.

(** What [odb.fs.cat_file] reads for an object: the content of a file, the
    serialised entries of a tree. *)
Definition obj_bytes (ob : Obj) : string :=
  match ob with
  | FileObj content => content
  | TreeObj d => serialize d
  end.

Definition _cat_object (o : string) : M World unit :=
  store <- gets odb ;;
  match store !! o with
  | Some ob => echo (Plain (obj_bytes ob))
  | None => raise (FileNotFoundError o)
  end.

Definition cat (o : string) (check : bool) : M World unit :=
  get_odb ;;;
  o <- from_shortoid o ;;
  if check then
    try_except (odb_check o)
      (fun exc => match exc with
                  | ObjectFormatError =>
                      Some (echo_err (ExcLine exc) ;;; raise (Exit 1))
                  | _ => None
                  end)
  else _cat_object o.

(** [odb.fs.remove(path)] on the path of the resolved oid *)
Definition rm (o : string) : M World unit :=
  get_odb ;;;
  o <- from_shortoid o ;;
  store <- gets odb ;;
  match store !! o with
  | Some _ => modify (set_odb (delete o))
  | None => raise (FileNotFoundError o)
  end.

Definition count_objects : M World unit :=
  get_odb ;;;
  oids <- odb_all ;;
  sizes <- map_m odb_size oids ;;
  let item := count_and_total sizes in
  echo (Plain (format_count (fst item) (snd item))).

(** One turn of the loop of [fsck]: [code] is the variable [ret]. *)
Definition fsck_step (o : string) (code : Z) : M World Z :=
  try_except (odb_check o ;;; ret code)
    (fun exc => match exc with
                | ObjectFormatError => Some (echo (ExcLine exc) ;;; ret 1%Z)
                | _ => None
                end).

Fixpoint fsck_loop (oids : list string) (code : Z) : M World Z :=
  match oids with
  | [] => ret code
  | o :: r => code' <- fsck_step o code ;; fsck_loop r code'
  end.

Definition fsck : M World unit :=
  get_odb ;;;
  oids <- odb_all ;;
  code <- fsck_loop oids 0%Z ;;
  raise (Exit code).

End Inspect.

(** The objects of a list of digests that fail the integrity check. *)
Definition failing (verify : string -> Obj -> bool) (store : gmap string Obj)
    (oids : list string) : list string :=
  filter (fun o => from_option (verify o) true (store !! o) = false) oids.

(** The size the store reports for a digest; nothing for a missing one. *)
Definition stored_size (obj_size : Obj -> N) (store : gmap string Obj)
    (o : string) : N :=
  from_option obj_size 0%N (store !! o).

(** ** Vocabulary of the further statements *)

(** The shape click gives the values of the options of [update_tree]. *)
Definition is_pair (i : Item) : bool :=
  match i with
  | ItemPair _ _ => true
  | ItemStr _ => false
  end.

Definition is_single (i : Item) : bool := negb (is_pair i).

(** A record with the fields its op needs. *)
Definition well_formed_record (a : application) : Prop :=
  exists op path,
    a !! "op" = Some op /\ a !! "path" = Some path
    /\ ((op ∈ ["add"; "modify"; "copy"; "move"] /\ is_Some (a !! "to"))
        \/ op ∈ ["remove"; "test"]).

(** ** More of the small repository *)

Module Tour.

(** Stand-ins for the integrity check, the sizes, the serialisation and
    the summary line. *)
Definition verify (o : string) (ob : Obj) : bool :=
  match ob with
  | FileObj content => String.eqb (Demo.file_md5 content) o
  | TreeObj d => String.eqb (Demo.tree_md5 d) o
  end.

Definition serialize (d : gmap Key Entry) : string := Demo.tree_md5 d.

Definition obj_size (ob : Obj) : N :=
  match ob with
  | FileObj content => N.of_nat (String.length content)
  | TreeObj d => N.of_nat (String.length (serialize d))
  end.

Definition format_count (count : nat) (total : N) : string :=
  pretty count ++ " objects, " ++ pretty total ++ " size".

(** The repository of [Demo] with one more object, stored under a digest
    that is not the digest of its content. *)
Definition corrupt_world : World :=
  set_odb (insert "bad" (FileObj "zzz")) Demo.world.

Definition json_loads (text : string) : option (list application) :=
  Some [Demo.remove_ab; Demo.move_ab_ac].

Definition root_entry : TreeEntry :=
  mkTreeEntry false [""] None (Some (Demo.h "0123456789abcdef")).

Definition move_ac_ab : application := record_of_item "move" (ItemPair "a/c" "a/b").

Definition copy_ab_ab : application := record_of_item "copy" (ItemPair "a/b" "a/b").

Definition remove_foo : application := record_of_item "remove" (ItemStr "foo").

Definition move_x_z : application := record_of_item "move" (ItemPair "x" "z").

End Tour.

(** * Properties *)

(** Unfold the monad operations down to functions on states. *)
Ltac run :=
  unfold pop_key, getitem;
  unfold bind, ret, raise, gets, modify, lift_res, liftW, try_except,
    set_obj;
  simpl.

(** Run the first command of a sequence whose outcome [H] gives. *)
Ltac step H := unfold bind at 1; rewrite H.

Lemma in_dict_true (k : Key) (t : Tree) (e : Entry) :
  _dict t !! k = Some e -> in_dict k t = true.
Proof. unfold in_dict. intros ->. reflexivity. Qed.

Lemma in_dict_false (k : Key) (t : Tree) :
  _dict t !! k = None -> in_dict k t = false.
Proof. unfold in_dict. intros ->. reflexivity. Qed.

Section Properties.

Variable file_md5 : string -> string.
Variable tree_md5 : gmap Key Entry -> string.
Variable _diff : Tree -> Tree -> gmap string Obj -> DiffResult.
Variable json_loads : string -> option (list application).
Variable merge :
  option HashInfo -> option HashInfo -> option HashInfo -> M World Tree.

(** *** What each branch of [apply_op] computes *)

Lemma apply_op_absent (a : application) (s : Frame) (op path : string) :
  a !! "op" = Some op -> is_add_modify op = false ->
  a !! "path" = Some path ->
  _dict (obj s) !! PyStr.split "/" path = None ->
  apply_op file_md5 a s = (Raise (FileNotFoundError path), s).
Proof.
  unfold is_add_modify. intros Hop Hne Hpath Habs.
  unfold apply_op. rewrite Hop. run. rewrite Hpath. simpl.
  rewrite Hne, (in_dict_false _ _ Habs). reflexivity.
Qed.

Lemma apply_op_test (a : application) (s : Frame) (path : string) (e : Entry) :
  a !! "op" = Some "test" -> a !! "path" = Some path ->
  _dict (obj s) !! PyStr.split "/" path = Some e ->
  apply_op file_md5 a s = (Ok tt, s).
Proof.
  intros Hop Hpath He. unfold apply_op. rewrite Hop. run. rewrite Hpath.
  simpl. rewrite (in_dict_true _ _ _ He). reflexivity.
Qed.

Lemma apply_op_remove (a : application) (w : World) (t : Tree)
    (path : string) (e : Entry) :
  a !! "op" = Some "remove" -> a !! "path" = Some path ->
  _dict t !! PyStr.split "/" path = Some e ->
  apply_op file_md5 a (mkFrame w t) =
    (Ok tt, mkFrame w (mkTree (delete (PyStr.split "/" path) (_dict t))
                         (delete "trie" (__dict__ t))
                         (hash_info t) (fs_path t))).
Proof.
  intros Hop Hpath He. unfold apply_op. rewrite Hop. run. rewrite Hpath.
  simpl. rewrite (in_dict_true _ _ _ He). simpl.
  unfold TreeOps.dict_pop. rewrite He. reflexivity.
Qed.

Lemma apply_op_copy (a : application) (w : World) (t : Tree)
    (path to : string) (e : Entry) :
  a !! "op" = Some "copy" -> a !! "path" = Some path -> a !! "to" = Some to ->
  _dict t !! PyStr.split "/" path = Some e ->
  apply_op file_md5 a (mkFrame w t) =
    (Ok tt, mkFrame w (TreeOps.add (PyStr.split "/" to) (fst e) (snd e) t)).
Proof.
  intros Hop Hpath Hto He. unfold apply_op. rewrite Hop. run. rewrite Hpath.
  simpl. rewrite (in_dict_true _ _ _ He). simpl. rewrite Hto. simpl.
  unfold TreeOps.get. rewrite He. reflexivity.
Qed.

Lemma apply_op_move (a : application) (w : World) (t : Tree)
    (path to : string) (e : Entry) :
  a !! "op" = Some "move" -> a !! "path" = Some path -> a !! "to" = Some to ->
  _dict t !! PyStr.split "/" path = Some e ->
  apply_op file_md5 a (mkFrame w t) =
    (Ok tt, mkFrame w (mkTree (delete (PyStr.split "/" path)
                                 (<[PyStr.split "/" to := e]> (_dict t)))
                         ∅ None None)).
Proof.
  intros Hop Hpath Hto He. unfold apply_op. rewrite Hop. run. rewrite Hpath.
  simpl. rewrite (in_dict_true _ _ _ He). simpl. rewrite Hto. simpl.
  unfold TreeOps.get. rewrite He. simpl.
  unfold TreeOps.dict_pop. simpl. destruct e as [m h]. simpl.
  destruct (decide (PyStr.split "/" to = PyStr.split "/" path)) as [Heq|Hne].
  - rewrite Heq, lookup_insert_eq. reflexivity.
  - rewrite lookup_insert_ne, He by auto. reflexivity.
Qed.

Lemma apply_op_add_present (a : application) (s : Frame) (path to : string) :
  a !! "op" = Some "add" -> a !! "path" = Some path -> a !! "to" = Some to ->
  is_Some (_dict (obj s) !! PyStr.split "/" to) ->
  apply_op file_md5 a s = (Raise (FileExistsError path), s).
Proof.
  intros Hop Hpath Hto [e He]. unfold apply_op. rewrite Hop. run.
  rewrite Hpath. simpl. rewrite Hto. simpl.
  rewrite (in_dict_true _ _ _ He). reflexivity.
Qed.

Lemma apply_op_insert (a : application) (w : World) (t : Tree)
    (op path to : string) (m : Meta) (content : string) :
  a !! "op" = Some op -> a !! "path" = Some path -> a !! "to" = Some to ->
  (op = "add" /\ _dict t !! PyStr.split "/" to = None) \/ op = "modify" ->
  local_fs w !! path = Some (m, content) ->
  apply_op file_md5 a (mkFrame w t) =
    (Ok tt,
     mkFrame (set_odb (insert (file_md5 content) (FileObj content)) w)
       (TreeOps.add (PyStr.split "/" to) (Some m)
          (mkHashInfo "md5" (file_md5 content)) t)).
Proof.
  intros Hop Hpath Hto Hcase Hfs. unfold apply_op. rewrite Hop. run.
  rewrite Hpath. simpl. rewrite Hto.
  destruct Hcase as [[-> Habs]| ->]; simpl.
  - rewrite (in_dict_false _ _ Habs). unfold _build, odb_add_file. run.
    rewrite Hfs. simpl. rewrite Hfs. reflexivity.
  - unfold _build, odb_add_file. run. rewrite Hfs. simpl. rewrite Hfs.
    reflexivity.
Qed.

(** C3.  For an operation whose op is remove, move, copy or test: if the
    key named by its path is absent from the tree, [apply_op] raises
    [FileNotFoundError] and changes nothing.  If the key is present with
    entry [e]: test succeeds and changes nothing; remove deletes the
    entry; copy stores [e] under the key of [to] and keeps the source;
    move stores [e] under the key of [to] and then removes the original
    key, so the original key is absent afterwards and, when the two keys
    differ, [e] sits under the new one. *)
Theorem apply_op_remove_move_copy_test
    (a : application) (s : Frame) (op path : string) :
  a !! "op" = Some op ->
  op ∈ ["remove"; "move"; "copy"; "test"] ->
  a !! "path" = Some path ->
  let keys := PyStr.split "/" path in
  (_dict (obj s) !! keys = None ->
     apply_op file_md5 a s = (Raise (FileNotFoundError path), s))
  /\ (forall e, _dict (obj s) !! keys = Some e ->
        (op = "test" -> apply_op file_md5 a s = (Ok tt, s))
        /\ (op = "remove" ->
              exists s', apply_op file_md5 a s = (Ok tt, s')
                /\ world s' = world s
                /\ _dict (obj s') = delete keys (_dict (obj s))
                /\ _dict (obj s') !! keys = None)
        /\ (forall to, a !! "to" = Some to ->
              let new := PyStr.split "/" to in
              (op = "copy" ->
                 exists s', apply_op file_md5 a s = (Ok tt, s')
                   /\ world s' = world s
                   /\ _dict (obj s') = <[new := e]> (_dict (obj s))
                   /\ _dict (obj s') !! new = Some e
                   /\ _dict (obj s') !! keys = Some e)
              /\ (op = "move" ->
                    exists s', apply_op file_md5 a s = (Ok tt, s')
                      /\ world s' = world s
                      /\ _dict (obj s') = delete keys (<[new := e]> (_dict (obj s)))
                      /\ _dict (obj s') !! keys = None
                      /\ (new <> keys -> _dict (obj s') !! new = Some e)))).
Proof.
  intros Hop Hin Hpath keys. split.
  - intros Habs. apply (apply_op_absent a s op path); auto.
    set_unfold in Hin. destruct Hin as [->|[->|[->|[->|[]]]]]; reflexivity.
  - intros e He. destruct s as [w t]. simpl in He.
    split; [|split].
    + intros ->. eapply apply_op_test; eauto.
    + intros ->. eexists. split; [eapply apply_op_remove; eauto|]. simpl.
      split; [reflexivity|]. split; [reflexivity|]. apply lookup_delete_eq.
    + intros to Hto. set (new := PyStr.split "/" to). split.
      * intros ->. eexists. split; [eapply apply_op_copy; eauto|]. simpl.
        fold new keys. destruct e as [m h]. simpl.
        split; [reflexivity|]. split; [reflexivity|].
        split; [apply lookup_insert_eq|].
        destruct (decide (new = keys)) as [->|Hne].
        -- apply lookup_insert_eq.
        -- rewrite lookup_insert_ne; auto.
      * intros ->. eexists. split; [eapply apply_op_move; eauto|]. simpl.
        fold new keys.
        split; [reflexivity|]. split; [reflexivity|].
        split; [apply lookup_delete_eq|].
        intros Hne. rewrite lookup_delete_ne by auto. apply lookup_insert_eq.
Qed.

(** C2.  An add whose target key is already present raises
    [FileExistsError] and changes nothing.  Otherwise add, and modify
    whether or not the key is occupied, insert under the target key the
    entry built from the external content at [path] (its metadata and the
    digest of its content), and add the hashed content to the object
    database.  In particular, adding foo to the empty tree yields the tree
    that maps foo to the digest of its content, and adding foo again to
    that tree raises [FileExistsError]. *)
Theorem apply_op_add_modify
    (a : application) (s : Frame) (path to : string) :
  a !! "path" = Some path ->
  a !! "to" = Some to ->
  let new := PyStr.split "/" to in
  (a !! "op" = Some "add" -> is_Some (_dict (obj s) !! new) ->
     apply_op file_md5 a s = (Raise (FileExistsError path), s))
  /\ (forall m content,
        local_fs (world s) !! path = Some (m, content) ->
        (a !! "op" = Some "add" /\ _dict (obj s) !! new = None)
          \/ a !! "op" = Some "modify" ->
        let h := mkHashInfo "md5" (file_md5 content) in
        exists s', apply_op file_md5 a s = (Ok tt, s')
          /\ _dict (obj s') = <[new := (Some m, h)]> (_dict (obj s))
          /\ odb (world s') = <[hvalue h := FileObj content]> (odb (world s)))
  /\ (forall w m content,
        local_fs w !! "foo" = Some (m, content) ->
        let foo := record_of_item "add" (ItemPair "foo" "foo") in
        let d1 := mkHashInfo "md5" (file_md5 content) in
        exists s1,
          apply_op file_md5 foo (mkFrame w TreeOps.empty) = (Ok tt, s1)
          /\ _dict (obj s1) = {[ ["foo"] := (Some m, d1) ]}
          /\ apply_op file_md5 foo s1 = (Raise (FileExistsError "foo"), s1)).
Proof.
  intros Hpath Hto new. split; [|split].
  - intros Hop Hpres. eapply apply_op_add_present; eauto.
  - intros m content Hfs Hcase h. destruct s as [w t]. simpl in *.
    eexists. split.
    + destruct Hcase as [[Hop Habs]|Hop].
      * eapply (apply_op_insert a w t "add"); eauto.
      * eapply (apply_op_insert a w t "modify"); eauto.
    + simpl. auto.
  - intros w m content Hfs foo d1. eexists. split; [|split].
    + eapply (apply_op_insert foo w TreeOps.empty "add" "foo" "foo");
        try reflexivity; eauto.
    + simpl. reflexivity.
    + eapply (apply_op_add_present foo _ "foo" "foo"); try reflexivity.
      simpl. rewrite lookup_insert_eq. eauto.
Qed.

(** C5.  On the tree that maps a/b to [d1], the patch that moves a/b to
    a/c yields the tree that maps a/c to the same metadata and digest and
    nothing else, and a test of a/b on the result raises
    [FileNotFoundError]. *)
Theorem move_ab_to_ac
    (w : World) (m : option Meta) (d1 : HashInfo)
    (tr : gmap string (gmap Key Entry)) (fp : option (gmap Key Entry))
    (hi : option HashInfo) :
  let t := mkTree {[ ["a"; "b"] := (m, d1) ]} tr hi fp in
  let mv := record_of_item "move" (ItemPair "a/b" "a/c") in
  let tst := record_of_item "test" (ItemStr "a/b") in
  exists s',
    apply_patch file_md5 [mv] (mkFrame w t) = (Ok tt, s')
    /\ _dict (obj s') = {[ ["a"; "c"] := (m, d1) ]}
    /\ _dict (obj s') !! ["a"; "b"] = None
    /\ apply_op file_md5 tst s' = (Raise (FileNotFoundError "a/b"), s').
Proof.
  intros t mv tst.
  assert (Hmv : apply_op file_md5 mv (mkFrame w t) =
      (Ok tt, mkFrame w (mkTree (delete ["a"; "b"]
                  (<[ ["a"; "c"] := (m, d1) ]> {[ ["a"; "b"] := (m, d1) ]}))
                  ∅ None None))).
  { apply (apply_op_move mv w t "a/b" "a/c" (m, d1)); reflexivity. }
  assert (Hd : delete ["a"; "b"]
                 (<[ ["a"; "c"] := (m, d1) ]> {[ ["a"; "b"] := (m, d1) ]})
               = ({[ ["a"; "c"] := (m, d1) ]} : gmap Key Entry)).
  { rewrite delete_insert_ne by discriminate.
    rewrite delete_singleton_eq. reflexivity. }
  eexists. split; [|split; [|split]].
  - unfold apply_patch. simpl. run. rewrite Hmv. simpl. reflexivity.
  - simpl. exact Hd.
  - simpl. rewrite Hd. apply lookup_singleton_ne. discriminate.
  - apply (apply_op_absent tst _ "test" "a/b"); reflexivity.
Qed.

(** C10.  A move whose path and to name the same present key removes the
    entry: the key is absent from the tree afterwards, and the rest of the
    tree is as before. *)
Theorem apply_op_move_onto_itself
    (a : application) (s : Frame) (path to : string) (k : Key) :
  a !! "op" = Some "move" ->
  a !! "path" = Some path ->
  a !! "to" = Some to ->
  PyStr.split "/" path = k ->
  PyStr.split "/" to = k ->
  is_Some (_dict (obj s) !! k) ->
  exists s',
    apply_op file_md5 a s = (Ok tt, s')
    /\ _dict (obj s') !! k = None
    /\ _dict (obj s') = delete k (_dict (obj s)).
Proof.
  intros Hop Hpath Hto Hk1 Hk2 [e He]. destruct s as [w t]. simpl in He.
  eexists. split.
  - eapply apply_op_move; eauto. rewrite Hk1. exact He.
  - simpl. rewrite Hk1, Hk2. split.
    + apply lookup_delete_eq.
    + apply delete_insert_eq.
Qed.

(** C8.  What a remove leaves of a cached index.  [apply_op] deletes the
    key from [_dict] and pops the entry named trie of the instance
    dictionary, and no other.  So on a tree whose index is cached under
    [attr] and lists the key, the next query after the remove no longer
    sees the removed key when [attr] is trie, and still returns its entry
    when the index is cached under any other name: the index is then
    stale. *)
Theorem apply_op_remove_stale_index
    (attr : string) (a : application) (s : Frame) (path : string)
    (c : gmap Key Entry) (e : Entry) :
  a !! "op" = Some "remove" ->
  a !! "path" = Some path ->
  let keys := PyStr.split "/" path in
  _dict (obj s) !! keys = Some e ->
  __dict__ (obj s) !! attr = Some c ->
  c !! keys = Some e ->
  exists s',
    apply_op file_md5 a s = (Ok tt, s')
    /\ _dict (obj s') !! keys = None
    /\ __dict__ (obj s') = delete "trie" (__dict__ (obj s))
    /\ (attr = "trie" ->
          fst (TreeOps.query_trie attr (obj s')) !! keys = None)
    /\ (attr <> "trie" ->
          fst (TreeOps.query_trie attr (obj s')) !! keys = Some e).
Proof.
  intros Hop Hpath keys He Hc Hce. destruct s as [w t]. simpl in He, Hc.
  eexists. split; [eapply apply_op_remove; eauto|]. cbn [obj _dict __dict__].
  fold keys. split; [apply lookup_delete_eq|]. split; [reflexivity|].
  unfold TreeOps.query_trie. cbn [__dict__ _dict]. split.
  - intros ->. rewrite lookup_delete_eq. cbn [fst]. apply lookup_delete_eq.
  - intros Hne. rewrite lookup_delete_ne by congruence. rewrite Hc.
    cbn [fst]. exact Hce.
Qed.

(** An operation that raises has changed neither the tree nor the world:
    every check of [apply_op] comes before its first mutation. *)
Lemma apply_op_raise_unchanged (a : application) (s s' : Frame) (e : PyExc) :
  apply_op file_md5 a s = (Raise e, s') -> s' = s.
Proof.
  destruct s as [w t]. unfold apply_op.
  destruct (a !! "op") as [op|]; [|intros [= _ <-]; reflexivity].
  run.
  destruct (a !! "path") as [path|]; simpl; [|intros [= _ <-]; reflexivity].
  set (keys := PyStr.split "/" path).
  destruct (String.eqb op "add" || String.eqb op "modify").
  - destruct (a !! "to") as [to|]; simpl; [|intros [= _ <-]; reflexivity].
    set (new := PyStr.split "/" to).
    destruct (String.eqb op "add" && in_dict new t); simpl;
      [intros [= _ <-]; reflexivity|].
    unfold _build, odb_add_file. run.
    destruct (local_fs w !! path) as [[m c]|] eqn:Hfs; simpl;
      [|intros [= _ <-]; reflexivity].
    rewrite Hfs. simpl. discriminate.
  - simpl. unfold in_dict.
    destruct (_dict t !! keys) as [e0|] eqn:He; simpl;
      [|intros [= _ <-]; reflexivity].
    destruct (String.eqb op "test"); [discriminate|].
    destruct (String.eqb op "remove"); simpl.
    + unfold TreeOps.dict_pop. rewrite He. simpl. discriminate.
    + destruct (String.eqb op "copy" || String.eqb op "move"); simpl;
        [|intros [= _ <-]; reflexivity].
      destruct (a !! "to") as [to|]; simpl; [|intros [= _ <-]; reflexivity].
      set (new := PyStr.split "/" to).
      unfold TreeOps.get. rewrite He. simpl.
      destruct (String.eqb op "move"); simpl; [|discriminate].
      unfold TreeOps.dict_pop. simpl. fold new.
      destruct (decide (new = keys)) as [Heq|Hne].
      * rewrite Heq, lookup_insert_eq. discriminate.
      * rewrite lookup_insert_ne, He by auto. discriminate.
Qed.

(** C4.  The loop of [update_tree] applies the operations in list order
    and stops at the first one that raises.  If the loop returns, every
    operation has been applied in order.  If it raises, there is an index
    [i] such that the operations before [i] have all been applied in
    order, the operation at [i] raises, the tree (and the object database)
    is exactly the one those earlier operations produced, and whatever
    follows index [i] in the list has no influence on the outcome. *)
Theorem apply_patch_fail_fast (patch : list application) (s : Frame) :
  match apply_patch file_md5 patch s with
  | (Ok _, s') => for_each patch (apply_op file_md5) s = (Ok tt, s')
  | (Raise exc, s') =>
      exists (i : nat) (a : application) (s_i : Frame) (e0 : PyExc),
        patch !! i = Some a
        /\ for_each (take i patch) (apply_op file_md5) s = (Ok tt, s_i)
        /\ apply_op file_md5 a s_i = (Raise e0, s_i)
        /\ obj s' = obj s_i
        /\ odb (world s') = odb (world s_i)
        /\ match e0 with
           | FileExistsError _ | FileNotFoundError _ =>
               exc = Exit 1
               /\ stderr (world s') = (stderr (world s_i) ++ [ExcLine e0])%list
           | _ => exc = e0 /\ s' = s_i
           end
        /\ (forall rest,
              apply_patch file_md5 (take (S i) patch ++ rest) s = (Raise exc, s'))
  end.
Proof.
  revert s. induction patch as [|a r IH]; intros s.
  - reflexivity.
  - unfold apply_patch. simpl. unfold bind at 1. unfold try_except at 1.
    destruct (apply_op file_md5 a s) as [[[]|e0] s1] eqn:Ha.
    + fold (apply_patch file_md5 r). specialize (IH s1).
      destruct (apply_patch file_md5 r s1) as [[[]|exc] s'] eqn:Hr.
      * unfold bind at 1. rewrite Ha. exact IH.
      * destruct IH as (i & b & s_i & e1 & Hi & Hpre & Hb & Hobj & Hodb & Hexc & Hrest).
        exists (S i), b, s_i, e1. simpl.
        split; [exact Hi|]. split.
        { unfold bind at 1. rewrite Ha. exact Hpre. }
        split; [exact Hb|]. split; [exact Hobj|]. split; [exact Hodb|].
        split; [exact Hexc|].
        intros rest. specialize (Hrest rest).
        unfold apply_patch in *. simpl. unfold bind at 1.
        unfold try_except at 1. rewrite Ha. exact Hrest.
    + pose proof (apply_op_raise_unchanged _ _ _ _ Ha) as ->.
      assert (Hout : forall l : list application,
        (let (r0, s') :=
           match patch_error_handler e0 with
           | Some k => k s
           | None => (@Raise unit e0, s)
           end in
         match r0 with
         | Ok _ => for_each l
                     (fun application => try_except (apply_op file_md5 application)
                                           patch_error_handler) s'
         | Raise e => (Raise e, s')
         end)
        = match patch_error_handler e0 with
          | Some k => (Raise (Exit 1),
                       mkFrame (mkWorld (repo (world s)) (odb (world s))
                                  (local_fs (world s)) (stdin (world s))
                                  (stdout (world s))
                                  (stderr (world s) ++ [ExcLine e0])) (obj s))
          | None => (Raise e0, s)
          end).
      { intros l. destruct e0; reflexivity. }
      rewrite Hout.
      assert (Hfin : forall rest,
        apply_patch file_md5 (a :: rest) s
        = match patch_error_handler e0 with
          | Some k => (Raise (Exit 1),
                       mkFrame (mkWorld (repo (world s)) (odb (world s))
                                  (local_fs (world s)) (stdin (world s))
                                  (stdout (world s))
                                  (stderr (world s) ++ [ExcLine e0])) (obj s))
          | None => (Raise e0, s)
          end).
      { intros rest. unfold apply_patch. simpl. unfold bind at 1.
        unfold try_except at 1. rewrite Ha. apply Hout. }
      destruct e0; simpl;
        (exists 0, a, s; eexists; simpl;
         split; [reflexivity|]; split; [reflexivity|]; split; [exact Ha|];
         split; [reflexivity|]; split; [reflexivity|];
         split; [split; reflexivity|];
         intros rest; exact (Hfin rest)).
Qed.

(** *** Computations that leave the object database alone *)

Lemma keeps_odb_ret {A} (a : A) : keeps_odb (ret a).
Proof. intros w r w' [= _ <-]. reflexivity. Qed.

Lemma keeps_odb_raise {A} (e : PyExc) : keeps_odb (@raise World A e).
Proof. intros w r w' [= _ <-]. reflexivity. Qed.

Lemma keeps_odb_lift_res {A} (x : Res A) : keeps_odb (@lift_res World A x).
Proof. intros w r w' [= _ <-]. reflexivity. Qed.

Lemma keeps_odb_gets {A} (f : World -> A) : keeps_odb (gets f).
Proof. intros w r w' [= _ <-]. reflexivity. Qed.

Lemma keeps_odb_bind {A B} (m : M World A) (k : A -> M World B) :
  keeps_odb m -> (forall a, keeps_odb (k a)) -> keeps_odb (bind m k).
Proof.
  intros Hm Hk w r w'. unfold bind.
  destruct (m w) as [[a|e] w1] eqn:E.
  - intros Hr. rewrite (Hk a _ _ _ Hr). eapply Hm; eauto.
  - intros [= _ <-]. eapply Hm; eauto.
Qed.

Lemma keeps_odb_try {A} (m : M World A) (h : PyExc -> option (M World A)) :
  keeps_odb m -> (forall e k, h e = Some k -> keeps_odb k) ->
  keeps_odb (try_except m h).
Proof.
  intros Hm Hh w r w'. unfold try_except.
  destruct (m w) as [[a|e] w1] eqn:E.
  - intros [= _ <-]. eapply Hm; eauto.
  - destruct (h e) as [k|] eqn:Ek.
    + intros Hr. rewrite (Hh e k Ek _ _ _ Hr). eapply Hm; eauto.
    + intros [= _ <-]. eapply Hm; eauto.
Qed.

Lemma keeps_odb_echo (l : Line) : keeps_odb (echo l).
Proof. intros w r w' [= _ <-]. reflexivity. Qed.

Lemma keeps_odb_echo_err (l : Line) : keeps_odb (echo_err l).
Proof. intros w r w' [= _ <-]. reflexivity. Qed.

Lemma keeps_odb_stdin_read : keeps_odb stdin_read.
Proof. intros w r w' [= _ <-]. reflexivity. Qed.

Lemma keeps_odb_for_each {A} (l : list A) (body : A -> M World unit) :
  (forall a, keeps_odb (body a)) -> keeps_odb (for_each l body).
Proof.
  intros Hb. induction l as [|a l IH]; simpl.
  - apply keeps_odb_ret.
  - apply keeps_odb_bind; auto.
Qed.

Create HintDb keeps discriminated.
#[local] Hint Resolve keeps_odb_ret keeps_odb_raise keeps_odb_lift_res
  keeps_odb_gets keeps_odb_bind keeps_odb_try keeps_odb_echo
  keeps_odb_echo_err keeps_odb_stdin_read keeps_odb_for_each : keeps.

Lemma keeps_odb_get_odb : keeps_odb get_odb.
Proof.
  unfold get_odb. apply keeps_odb_bind; auto with keeps.
  intros []; auto with keeps.
Qed.

Lemma keeps_odb_exists_prefix (short : string) : keeps_odb (exists_prefix short).
Proof.
  unfold exists_prefix. apply keeps_odb_bind; auto with keeps.
  intros store. destruct (filter _ _) as [|o [|o' l]]; auto with keeps.
Qed.

Lemma keeps_odb_from_shortoid (o : string) : keeps_odb (from_shortoid o).
Proof.
  unfold from_shortoid. apply keeps_odb_bind.
  - destruct (String.eqb o "-"); auto with keeps.
  - intros o'. apply keeps_odb_try.
    + apply keeps_odb_exists_prefix.
    + intros e k. destruct e; intros [= <-]; auto with keeps.
Qed.

Lemma odb_get_same (o : string) (w w' : World) (r : Res HashInfo) :
  odb_get o w = (r, w') -> w' = w.
Proof.
  unfold odb_get. run. destruct (odb w !! o); intros [= _ <-]; reflexivity.
Qed.

Lemma load_same (h : HashInfo) (w w' : World) (r : Res Loaded) :
  load tree_md5 h w = (r, w') -> w' = w.
Proof.
  unfold load. run. destruct (odb w !! hvalue h) as [[c|d]|].
  - intros [= _ <-]; reflexivity.
  - destruct (decide (tree_hash_info tree_md5 d = h));
      intros [= _ <-]; reflexivity.
  - intros [= _ <-]; reflexivity.
Qed.

Lemma keeps_odb_odb_get (o : string) : keeps_odb (odb_get o).
Proof. intros w r w' H. rewrite (odb_get_same _ _ _ _ H). reflexivity. Qed.

Lemma keeps_odb_load (h : HashInfo) : keeps_odb (load tree_md5 h).
Proof. intros w r w' H. rewrite (load_same _ _ _ _ H). reflexivity. Qed.

Lemma keeps_odb_detect_conflicts (t1 t2 : Tree) :
  keeps_odb (detect_conflicts _diff t1 t2).
Proof.
  unfold detect_conflicts. apply keeps_odb_bind; auto with keeps.
  intros store. apply keeps_odb_bind; auto with keeps.
  intros [|f l]; auto 10 with keeps.
Qed.

#[local] Hint Resolve keeps_odb_get_odb keeps_odb_from_shortoid
  keeps_odb_odb_get keeps_odb_load keeps_odb_detect_conflicts : keeps.

(** *** Digest before persisting *)

Lemma no_new_tree_refl (m : gmap string Obj) : no_new_tree m m.
Proof. intros o d H. exact H. Qed.

Lemma no_new_tree_trans (m1 m2 m3 : gmap string Obj) :
  no_new_tree m1 m2 -> no_new_tree m2 m3 -> no_new_tree m1 m3.
Proof. intros H12 H23 o d H. apply H12, H23, H. Qed.

Lemma no_new_tree_insert_file (m : gmap string Obj) (o c : string) :
  no_new_tree m (<[o := FileObj c]> m).
Proof.
  intros o' d. destruct (decide (o = o')) as [->|Hne].
  - rewrite lookup_insert_eq. discriminate.
  - rewrite lookup_insert_ne by auto. auto.
Qed.

Lemma apply_op_no_new_tree (a : application) (s s' : Frame) (r : Res unit) :
  apply_op file_md5 a s = (r, s') ->
  no_new_tree (odb (world s)) (odb (world s')).
Proof.
  destruct r as [[]|e].
  2: { intros H. rewrite (apply_op_raise_unchanged _ _ _ _ H).
       apply no_new_tree_refl. }
  destruct s as [w t]. unfold apply_op.
  destruct (a !! "op") as [op|]; [|discriminate].
  run.
  destruct (a !! "path") as [path|]; simpl; [|discriminate].
  set (keys := PyStr.split "/" path).
  destruct (String.eqb op "add" || String.eqb op "modify"); simpl.
  - destruct (a !! "to") as [to|]; simpl; [|discriminate].
    destruct (String.eqb op "add" && in_dict (PyStr.split "/" to) t); simpl;
      [discriminate|].
    unfold _build, odb_add_file. run.
    destruct (local_fs w !! path) as [[m c]|] eqn:Hfs; simpl; [|discriminate].
    rewrite Hfs. simpl. intros [= <-]. simpl.
    apply no_new_tree_insert_file.
  - destruct (in_dict keys t); simpl; [|discriminate].
    destruct (String.eqb op "test"); simpl.
    { intros [= <-]. apply no_new_tree_refl. }
    destruct (String.eqb op "remove"); simpl.
    { destruct (TreeOps.dict_pop keys t); simpl; [|discriminate].
      intros [= <-]. apply no_new_tree_refl. }
    destruct (String.eqb op "copy" || String.eqb op "move"); simpl;
      [|discriminate].
    destruct (a !! "to") as [to|]; simpl; [|discriminate].
    destruct (TreeOps.get keys t) as [en|]; simpl; [|discriminate].
    destruct (String.eqb op "move"); simpl.
    + destruct (TreeOps.dict_pop keys _); simpl; [|discriminate].
      intros [= <-]. apply no_new_tree_refl.
    + intros [= <-]. apply no_new_tree_refl.
Qed.

Lemma apply_patch_no_new_tree (patch : list application) (s s' : Frame)
    (r : Res unit) :
  apply_patch file_md5 patch s = (r, s') ->
  no_new_tree (odb (world s)) (odb (world s')).
Proof.
  revert s. induction patch as [|a l IH]; intros s.
  - intros [= _ <-]. apply no_new_tree_refl.
  - unfold apply_patch. simpl. unfold bind at 1. unfold try_except at 1.
    destruct (apply_op file_md5 a s) as [[[]|e] s1] eqn:Ha;
      pose proof (apply_op_no_new_tree _ _ _ _ Ha) as Hn.
    + intros Hr. eapply no_new_tree_trans; [exact Hn|]. apply IH. exact Hr.
    + destruct e; simpl; intros [= _ <-]; exact Hn.
Qed.

Lemma digest_is_valid (t : Tree) : digest_valid tree_md5 (digest tree_md5 t).
Proof. split; reflexivity. Qed.

(** *** The stages of [merge_tree] *)

Lemma get_odb_ok (w w' : World) :
  get_odb w = (Ok tt, w') -> w' = w /\ repo w = true.
Proof.
  unfold get_odb, echo_err. run. destruct (repo w); [|discriminate].
  intros [= <-]. auto.
Qed.

Lemma odb_get_ok (o : string) (w w' : World) (h : HashInfo) :
  odb_get o w = (Ok h, w') -> h = mkHashInfo "md5" o /\ w' = w.
Proof.
  unfold odb_get. run. destruct (odb w !! o); [|discriminate].
  intros [= <- <-]. auto.
Qed.

Lemma conflict_paths_ok (l : list Change) :
  Forall (fun c : Change => key (old c) <> []) l ->
  conflict_paths l
  = Ok (map conflict_path (filter (fun c : Change => key (old c) <> ROOT) l)).
Proof.
  induction 1 as [|c l Hc _ IH]; [reflexivity|]. simpl.
  destruct (decide (key (old c) = ROOT)) as [Heq|Hne].
  - rewrite filter_cons_False by auto. exact IH.
  - rewrite filter_cons_True by auto. rewrite IH. simpl.
    unfold conflict_path at 2.
    destruct (key (old c)); [contradiction|reflexivity].
Qed.

Lemma conflict_paths_type_error (l : list Change) :
  Exists (fun c : Change => key (old c) = []) l ->
  conflict_paths l = Raise TypeError.
Proof.
  induction 1 as [c l Hc|c l _ IH]; simpl.
  - rewrite Hc. reflexivity.
  - rewrite IH. destruct (decide (key (old c) = ROOT)); [reflexivity|].
    destruct (PyStr.posixpath_join (key (old c))); reflexivity.
Qed.

Lemma conflicting_nil_keys (l : list Change) :
  filter (fun c : Change => key (old c) <> ROOT) l = [] ->
  Forall (fun c : Change => key (old c) <> []) l.
Proof.
  intros Hnil. apply Forall_forall. intros c Hin Hk.
  apply (filter_nil_not_elem_of _ _ c Hnil); [|exact Hin].
  rewrite Hk. discriminate.
Qed.

Lemma add_stdout_app (l1 l2 : list Line) (w : World) :
  add_stdout l2 (add_stdout l1 w) = add_stdout (l1 ++ l2) w.
Proof. unfold add_stdout. simpl. rewrite <- app_assoc. reflexivity. Qed.

Lemma echo_all (files : list string) (w : World) :
  for_each files (fun file => echo (Plain file)) w
  = (Ok tt, add_stdout (map Plain files) w).
Proof.
  revert w. induction files as [|f l IH]; intros w.
  - unfold add_stdout. simpl. rewrite app_nil_r. destruct w; reflexivity.
  - simpl. unfold bind, echo, modify. rewrite IH, add_stdout_app. reflexivity.
Qed.

Lemma detect_conflicts_unfold (t1 t2 : Tree) (w : World) :
  Forall (fun c : Change => key (old c) <> []) (modified (_diff t1 t2 (odb w))) ->
  detect_conflicts _diff t1 t2 w =
    match conflicting (_diff t1 t2 (odb w)) with
    | [] => (Ok tt, w)
    | _ => (Raise (Exit 1), add_stdout (conflict_report (_diff t1 t2 (odb w))) w)
    end.
Proof.
  intros Hkeys. unfold detect_conflicts, conflict_report, conflicting. run.
  rewrite (conflict_paths_ok _ Hkeys).
  destruct (filter _ (modified _)) as [|c l]; [reflexivity|].
  cbn [map]. cbv beta iota.
  rewrite echo_all, add_stdout_app. simpl. rewrite map_map. reflexivity.
Qed.

Lemma detect_conflicts_type_error (t1 t2 : Tree) (w : World) :
  Exists (fun c : Change => key (old c) = []) (modified (_diff t1 t2 (odb w))) ->
  detect_conflicts _diff t1 t2 w = (Raise TypeError, w).
Proof.
  intros Hex. unfold detect_conflicts. run.
  rewrite (conflict_paths_type_error _ Hex). reflexivity.
Qed.

Lemma detect_conflicts_none (t1 t2 : Tree) (w : World) :
  conflicting (_diff t1 t2 (odb w)) = [] ->
  detect_conflicts _diff t1 t2 w = (Ok tt, w).
Proof.
  intros Hnil. rewrite detect_conflicts_unfold.
  - rewrite Hnil. reflexivity.
  - apply conflicting_nil_keys. exact Hnil.
Qed.

(** Every way the conflict check ends. *)
Lemma detect_conflicts_cases (t1 t2 : Tree) (w : World) :
  let d := _diff t1 t2 (odb w) in
  (conflicting d = [] /\ detect_conflicts _diff t1 t2 w = (Ok tt, w))
  \/ (conflicting d <> []
      /\ (detect_conflicts _diff t1 t2 w
            = (Raise (Exit 1), add_stdout (conflict_report d) w)
          \/ detect_conflicts _diff t1 t2 w = (Raise TypeError, w))).
Proof.
  intros d.
  destruct (decide (Forall (fun c : Change => key (old c) <> []) (modified d)))
    as [Hall|Hnot].
  - rewrite (detect_conflicts_unfold _ _ _ Hall). fold d.
    destruct (conflicting d) as [|c l]; [left; auto|].
    right. split; [discriminate|]. left. reflexivity.
  - assert (Hex : Exists (fun c : Change => key (old c) = []) (modified d)).
    { apply not_Forall_Exists in Hnot; [|intros c; apply _].
      eapply Exists_impl; [exact Hnot|]. intros c Hc. simpl in Hc.
      destruct (decide (key (old c) = [])) as [Hk|Hk]; [exact Hk|].
      contradiction. }
    right. split.
    + intros Hnil. apply Hnot, conflicting_nil_keys. exact Hnil.
    + right. apply detect_conflicts_type_error. exact Hex.
Qed.

Lemma load_tree_inv (h : HashInfo) (w w' : World) (t : Tree) :
  load tree_md5 h w = (Ok (LTree t), w') ->
  exists d, odb w !! hvalue h = Some (TreeObj d)
    /\ t = mkTree d ∅ (Some h) (Some d).
Proof.
  unfold load. run. destruct (odb w !! hvalue h) as [[c|d]|]; try discriminate.
  destruct (decide (tree_hash_info tree_md5 d = h)); [|discriminate].
  intros [= <- _]. eauto.
Qed.

(** What [merge_tree] does once the two trees are loaded. *)
Lemma merge_tree_loaded
    (oid1 oid2 o1 o2 : string) (w w1 w2 : World) (A B : Tree) (force : bool) :
  repo w = true ->
  from_shortoid oid1 w = (Ok o1, w1) ->
  from_shortoid oid2 w1 = (Ok o2, w2) ->
  load tree_md5 (mkHashInfo "md5" o1) w2 = (Ok (LTree A), w2) ->
  load tree_md5 (mkHashInfo "md5" o2) w2 = (Ok (LTree B), w2) ->
  merge_tree tree_md5 _diff merge oid1 oid2 force w =
    bind (if negb force then detect_conflicts _diff A B else ret tt)
      (fun _ =>
         bind (merge None (hash_info A) (hash_info B))
           (fun tree =>
              bind (echo (ObjLine (hash_info (digest tree_md5 tree))))
                (fun _ => odb_add_tree (digest tree_md5 tree)))) w2.
Proof.
  intros Hrepo H1 H2 HA HB.
  destruct (load_tree_inv _ _ _ _ HA) as (dA & HoA & EA).
  destruct (load_tree_inv _ _ _ _ HB) as (dB & HoB & EB).
  assert (Hget1 : odb_get o1 w2 = (Ok (mkHashInfo "md5" o1), w2)).
  { unfold odb_get. run. simpl in HoA. rewrite HoA. reflexivity. }
  assert (Hget2 : odb_get o2 w2 = (Ok (mkHashInfo "md5" o2), w2)).
  { unfold odb_get. run. simpl in HoB. rewrite HoB. reflexivity. }
  assert (Hgo : get_odb w = (Ok tt, w)).
  { unfold get_odb. run. rewrite Hrepo. reflexivity. }
  unfold merge_tree.
  step Hgo. step H1. step H2. step Hget1. step HA. step Hget2. step HB.
  reflexivity.
Qed.

(** The end of [merge_tree]: what [merge] returns is digested, shown and
    stored; what it raises is passed on. *)
Lemma merge_and_store (a b : option HashInfo) (w : World) :
  bind (merge None a b)
    (fun tree =>
       bind (echo (ObjLine (hash_info (digest tree_md5 tree))))
         (fun _ => odb_add_tree (digest tree_md5 tree))) w
  = match merge None a b w with
    | (Ok t0, w3) => (Ok tt, stored_digested tree_md5 t0 w3)
    | (Raise e, w3) => (Raise e, w3)
    end.
Proof.
  unfold bind at 1. destruct (merge None a b w) as [[t0|e] w3]; reflexivity.
Qed.

(** Either [merge_tree] stops before both trees are loaded, whatever the
    force flag and with the database as it was, or the two oids resolve to
    two stored trees. *)
Lemma merge_tree_stages (oid1 oid2 : string) (w : World) :
  (exists e w',
     odb w' = odb w
     /\ forall force,
          merge_tree tree_md5 _diff merge oid1 oid2 force w = (Raise e, w'))
  \/ (exists o1 o2 w1 w2 A B,
        repo w = true
        /\ from_shortoid oid1 w = (Ok o1, w1)
        /\ from_shortoid oid2 w1 = (Ok o2, w2)
        /\ load tree_md5 (mkHashInfo "md5" o1) w2 = (Ok (LTree A), w2)
        /\ load tree_md5 (mkHashInfo "md5" o2) w2 = (Ok (LTree B), w2)
        /\ odb w2 = odb w).
Proof.
  destruct (get_odb w) as [[[]|e] wa] eqn:Hgo.
  2: { left. exists e, wa. split; [eapply keeps_odb_get_odb; eauto|].
       intros force. unfold merge_tree. step Hgo. reflexivity. }
  destruct (get_odb_ok _ _ Hgo) as [-> Hrepo].
  destruct (from_shortoid oid1 w) as [[o1|e] w1] eqn:H1;
    pose proof (keeps_odb_from_shortoid _ _ _ _ H1) as Ho1.
  2: { left. exists e, w1. split; [exact Ho1|].
       intros force. unfold merge_tree. step Hgo. step H1. reflexivity. }
  destruct (from_shortoid oid2 w1) as [[o2|e] w2] eqn:H2;
    pose proof (keeps_odb_from_shortoid _ _ _ _ H2) as Ho2.
  2: { left. exists e, w2. split; [congruence|].
       intros force. unfold merge_tree. step Hgo. step H1. step H2.
       reflexivity. }
  destruct (odb_get o1 w2) as [[h1|e] w3] eqn:Hg1;
    pose proof (odb_get_same _ _ _ _ Hg1) as ->.
  2: { left. exists e, w2. split; [congruence|].
       intros force. unfold merge_tree. step Hgo. step H1. step H2.
       step Hg1. reflexivity. }
  destruct (odb_get_ok _ _ _ _ Hg1) as [-> _].
  destruct (load tree_md5 (mkHashInfo "md5" o1) w2) as [[l1|e] w3] eqn:Hl1;
    pose proof (load_same _ _ _ _ Hl1) as ->.
  2: { left. exists e, w2. split; [congruence|].
       intros force. unfold merge_tree. step Hgo. step H1. step H2.
       step Hg1. step Hl1. reflexivity. }
  destruct (odb_get o2 w2) as [[h2|e] w3] eqn:Hg2;
    pose proof (odb_get_same _ _ _ _ Hg2) as ->.
  2: { left. exists e, w2. split; [congruence|].
       intros force. unfold merge_tree. step Hgo. step H1. step H2.
       step Hg1. step Hl1. step Hg2. reflexivity. }
  destruct (odb_get_ok _ _ _ _ Hg2) as [-> _].
  destruct (load tree_md5 (mkHashInfo "md5" o2) w2) as [[l2|e] w3] eqn:Hl2;
    pose proof (load_same _ _ _ _ Hl2) as ->.
  2: { left. exists e, w2. split; [congruence|].
       intros force. unfold merge_tree. step Hgo. step H1. step H2.
       step Hg1. step Hl1. step Hg2. step Hl2. reflexivity. }
  destruct l1 as [A|f1], l2 as [B|f2].
  2-4: left; exists AssertionError, w2; (split; [congruence|]);
       intros force; unfold merge_tree; step Hgo; step H1; step H2;
       step Hg1; step Hl1; step Hg2; step Hl2; reflexivity.
  right. exists o1, o2, w1, w2, A, B.
  repeat split; try assumption. congruence.
Qed.

(** C9.  Both flows that mutate a tree digest it after the last mutation
    and before it is stored.  In [update_tree], once the loop over the
    patch has returned, the tree is digested and then stored: what enters
    the object database is the mapping the loop produced, under the digest
    of exactly that mapping, and the tree is digest-valid at that moment;
    if the loop raises, no tree object enters the database.  In
    [merge_tree], let the two oids resolve to the stored trees [A] and [B]
    and let no conflict stop the run (it is forced, or the diff of [A] and
    [B] has no conflicting change): whatever tree the merge of [A] and [B]
    returns, and whatever digest that tree carries, the run returns having
    shown and stored the entries of that tree under the digest of these
    entries.  Conversely a run of [merge_tree] that returns is such a run,
    and a run that raises has stored nothing, unless the exception is the
    one of the merge of the two loaded trees, which is passed on with the
    world as the merge left it. *)
Theorem digest_before_persist :
  (forall (patch : list application) (s : Frame),
     match update_tree_body file_md5 tree_md5 patch s with
     | (Ok _, s') =>
         exists s1,
           apply_patch file_md5 patch s = (Ok tt, s1)
           /\ obj s' = digest tree_md5 (obj s1)
           /\ digest_valid tree_md5 (obj s')
           /\ odb (world s') =
                <[tree_md5 (_dict (obj s1)) := TreeObj (_dict (obj s1))]>
                  (odb (world s1))
     | (Raise e, s') =>
         apply_patch file_md5 patch s = (Raise e, s')
         /\ no_new_tree (odb (world s)) (odb (world s'))
     end)
  /\ (forall (oid1 oid2 o1 o2 : string) (force : bool) (w w1 w2 w3 : World)
        (A B t0 : Tree),
        repo w = true ->
        from_shortoid oid1 w = (Ok o1, w1) ->
        from_shortoid oid2 w1 = (Ok o2, w2) ->
        load tree_md5 (mkHashInfo "md5" o1) w2 = (Ok (LTree A), w2) ->
        load tree_md5 (mkHashInfo "md5" o2) w2 = (Ok (LTree B), w2) ->
        force = true \/ conflicting (_diff A B (odb w2)) = [] ->
        merge None (hash_info A) (hash_info B) w2 = (Ok t0, w3) ->
        merge_tree tree_md5 _diff merge oid1 oid2 force w
        = (Ok tt, stored_digested tree_md5 t0 w3)
        /\ odb (stored_digested tree_md5 t0 w3)
           = <[tree_md5 (_dict t0) := TreeObj (_dict t0)]> (odb w3)
        /\ stdout (stored_digested tree_md5 t0 w3)
           = (stdout w3 ++ [ObjLine (Some (tree_hash_info tree_md5 (_dict t0)))])%list)
  /\ (forall (oid1 oid2 : string) (force : bool) (w : World),
        match merge_tree tree_md5 _diff merge oid1 oid2 force w with
        | (Ok _, w') =>
            exists o1 o2 w1 w2 w3 A B t0,
              from_shortoid oid1 w = (Ok o1, w1)
              /\ from_shortoid oid2 w1 = (Ok o2, w2)
              /\ load tree_md5 (mkHashInfo "md5" o1) w2 = (Ok (LTree A), w2)
              /\ load tree_md5 (mkHashInfo "md5" o2) w2 = (Ok (LTree B), w2)
              /\ merge None (hash_info A) (hash_info B) w2 = (Ok t0, w3)
              /\ w' = stored_digested tree_md5 t0 w3
        | (Raise e, w') =>
            odb w' = odb w
            \/ exists o1 o2 w1 w2 A B,
                 from_shortoid oid1 w = (Ok o1, w1)
                 /\ from_shortoid oid2 w1 = (Ok o2, w2)
                 /\ load tree_md5 (mkHashInfo "md5" o1) w2 = (Ok (LTree A), w2)
                 /\ load tree_md5 (mkHashInfo "md5" o2) w2 = (Ok (LTree B), w2)
                 /\ merge None (hash_info A) (hash_info B) w2 = (Raise e, w')
        end).
Proof.
  split; [|split].
  - intros patch s. unfold update_tree_body. unfold bind at 1.
    destruct (apply_patch file_md5 patch s) as [[[]|e] s1] eqn:Hp.
    + simpl. exists s1. split; [reflexivity|]. split; [reflexivity|].
      split; [apply digest_is_valid|]. reflexivity.
    + split; [reflexivity|]. eapply apply_patch_no_new_tree; eauto.
  - intros oid1 oid2 o1 o2 force w w1 w2 w3 A B t0 Hrepo H1 H2 HA HB Hgo Hm.
    split; [|split; reflexivity].
    rewrite (merge_tree_loaded oid1 oid2 o1 o2 w w1 w2 A B force); auto.
    unfold bind at 1.
    assert (Hpass : (if negb force then detect_conflicts _diff A B else ret tt) w2
                    = (Ok tt, w2)).
    { destruct force; [reflexivity|]. cbn [negb].
      destruct Hgo as [Hf|Hnil]; [discriminate|].
      apply detect_conflicts_none. exact Hnil. }
    rewrite Hpass, merge_and_store, Hm. reflexivity.
  - intros oid1 oid2 force w.
    destruct (merge_tree_stages oid1 oid2 w)
      as [(e & w' & Ho & Hall)
         |(o1 & o2 & w1 & w2 & A & B & Hrepo & H1 & H2 & HA & HB & Ho)].
    { rewrite Hall. left. exact Ho. }
    rewrite (merge_tree_loaded oid1 oid2 o1 o2 w w1 w2 A B force); auto.
    unfold bind at 1.
    assert (Hchk : (if negb force then detect_conflicts _diff A B else ret tt) w2
                   = (Ok tt, w2)
                   \/ exists e w', (if negb force then detect_conflicts _diff A B
                                    else ret tt) w2 = (Raise e, w')
                                   /\ odb w' = odb w2).
    { destruct force; [left; reflexivity|]. cbn [negb].
      destruct (detect_conflicts_cases A B w2)
        as [(_ & ->)|(_ & [-> | ->])]; [left; reflexivity| |];
        right; eexists; eexists; (split; [reflexivity|reflexivity]). }
    destruct Hchk as [->|(e & w' & -> & Ho')].
    + rewrite merge_and_store.
      destruct (merge None (hash_info A) (hash_info B) w2) as [[t0|e] w3] eqn:Hm.
      * exists o1, o2, w1, w2, w3, A, B, t0. auto 10.
      * right. exists o1, o2, w1, w2, A, B. auto 10.
    + left. congruence.
Qed.

(** *** Short oids *)

Lemma elem_of_matches (store : gmap string Obj) (short x : string) :
  x ∈ matches store short <-> hit store short x.
Proof.
  unfold matches, hit. rewrite list_elem_of_filter, elem_of_elements.
  rewrite Is_true_true. split; intros [H1 H2]; split; assumption.
Qed.

Lemma NoDup_matches (store : gmap string Obj) (short : string) :
  NoDup (matches store short).
Proof. unfold matches. apply NoDup_filter, NoDup_elements. Qed.

Lemma matches_none (store : gmap string Obj) (short : string) :
  (forall x, ~ hit store short x) -> matches store short = [].
Proof.
  intros Hno. destruct (matches store short) as [|x l] eqn:E; [reflexivity|].
  exfalso. apply (Hno x), elem_of_matches. rewrite E. left.
Qed.

Lemma matches_unique (store : gmap string Obj) (short x : string) :
  hit store short x -> (forall y, hit store short y -> y = x) ->
  matches store short = [x].
Proof.
  intros Hx Huniq. pose proof (NoDup_matches store short) as Hnd.
  apply elem_of_matches in Hx.
  assert (Hall : forall y, y ∈ matches store short -> y = x).
  { intros y Hy. apply Huniq, elem_of_matches, Hy. }
  destruct (matches store short) as [|a [|b l]].
  - apply not_elem_of_nil in Hx. contradiction.
  - rewrite (Hall a) by left. reflexivity.
  - exfalso. apply NoDup_cons in Hnd as [Hnotin _]. apply Hnotin.
    rewrite (Hall a) by left. rewrite (Hall b) by (right; left). left.
Qed.

Lemma matches_several (store : gmap string Obj) (short x y : string) :
  x <> y -> hit store short x -> hit store short y ->
  exists a b l, matches store short = a :: b :: l.
Proof.
  intros Hne Hx Hy. apply elem_of_matches in Hx, Hy.
  destruct (matches store short) as [|a [|b l]].
  - apply not_elem_of_nil in Hx. contradiction.
  - apply list_elem_of_singleton in Hx, Hy. congruence.
  - eauto.
Qed.

Lemma from_shortoid_unfold (o : string) (w : World) :
  from_shortoid o w =
    match matches (odb w) (requested_oid w o) with
    | [] => (Raise (Exit 1),
             add_stderr [NotAValidOid (requested_oid w o)] (after_oid_arg o w))
    | [x] => (Ok x, after_oid_arg o w)
    | _ => (Raise (Exit 1),
            add_stderr [AmbiguousOid (requested_oid w o)] (after_oid_arg o w))
    end.
Proof.
  unfold from_shortoid, requested_oid, after_oid_arg, matches, exists_prefix,
    stdin_read, echo_err.
  destruct (String.eqb o "-"); run;
    destruct (filter _ _) as [|a [|b l]]; reflexivity.
Qed.

(** C7.  [from_shortoid] resolves the requested short oid against the
    digests in the object database.  If no stored digest starts with it,
    the command reports an invalid oid and raises [Exit 1]; if two
    different stored digests start with it, the command reports an
    ambiguous oid and raises [Exit 1]; in both cases nothing that follows
    the call is run.  If exactly one stored digest starts with it, that
    digest is returned. *)
Theorem from_shortoid_resolution (w : World) (o : string) :
  let short := requested_oid w o in
  let w1 := after_oid_arg o w in
  ((forall x, ~ hit (odb w) short x) ->
     from_shortoid o w = (Raise (Exit 1), add_stderr [NotAValidOid short] w1)
     /\ forall (B : Type) (k : string -> M World B),
          bind (from_shortoid o) k w
          = (Raise (Exit 1), add_stderr [NotAValidOid short] w1))
  /\ ((exists x y, x <> y /\ hit (odb w) short x /\ hit (odb w) short y) ->
        from_shortoid o w = (Raise (Exit 1), add_stderr [AmbiguousOid short] w1)
        /\ forall (B : Type) (k : string -> M World B),
             bind (from_shortoid o) k w
             = (Raise (Exit 1), add_stderr [AmbiguousOid short] w1))
  /\ (forall x, hit (odb w) short x ->
        (forall y, hit (odb w) short y -> y = x) ->
        from_shortoid o w = (Ok x, w1)).
Proof.
  intros short w1. split; [|split].
  - intros Hno.
    assert (E : from_shortoid o w
                = (Raise (Exit 1), add_stderr [NotAValidOid short] w1)).
    { rewrite from_shortoid_unfold. fold short w1.
      rewrite (matches_none _ _ Hno). reflexivity. }
    split; [exact E|]. intros B k. unfold bind. rewrite E. reflexivity.
  - intros (x & y & Hne & Hx & Hy).
    assert (E : from_shortoid o w
                = (Raise (Exit 1), add_stderr [AmbiguousOid short] w1)).
    { rewrite from_shortoid_unfold. fold short w1.
      destruct (matches_several _ _ _ _ Hne Hx Hy) as (a & b & l & ->).
      reflexivity. }
    split; [exact E|]. intros B k. unfold bind. rewrite E. reflexivity.
  - intros x Hx Huniq. rewrite from_shortoid_unfold. fold short w1.
    rewrite (matches_unique _ _ _ Hx Huniq). reflexivity.
Qed.

(** *** Conflicts of [merge_tree] *)

(** C1.  Let the two oids resolve to trees [A] and [B] of the object
    database.  Without force, [merge_tree] raises [Exit 1] after printing
    the conflict header and the joined path of every modified change of
    [diff A B] whose key is not the root, in case there is at least one
    such change; in case there is none the run is the forced run.  So,
    unless the merge of the two trees itself raises [Exit 1], the run
    without force ends in [Exit 1] if and only if the diff has a modified
    entry with a non-root key.  This is for a diff whose modified keys
    have at least one segment; an empty key among them ends the run
    without force in a [TypeError], nothing printed.  With force the diff
    is not consulted: the run is the merge of the two trees, whose result
    is digested, shown and stored, and whose exception, if it raises, is
    passed on as it is. *)
Theorem merge_tree_conflict
    (oid1 oid2 o1 o2 : string) (w w1 w2 : World) (A B : Tree) :
  repo w = true ->
  from_shortoid oid1 w = (Ok o1, w1) ->
  from_shortoid oid2 w1 = (Ok o2, w2) ->
  load tree_md5 (mkHashInfo "md5" o1) w2 = (Ok (LTree A), w2) ->
  load tree_md5 (mkHashInfo "md5" o2) w2 = (Ok (LTree B), w2) ->
  let d := _diff A B (odb w2) in
  let has_conflict := exists c, c ∈ modified d /\ key (old c) <> ROOT in
  let keyed := forall c, c ∈ modified d -> key (old c) <> [] in
  let run := merge_tree tree_md5 _diff merge oid1 oid2 in
  let merged := merge None (hash_info A) (hash_info B) w2 in
  (keyed -> has_conflict ->
     run false w = (Raise (Exit 1), add_stdout (conflict_report d) w2)
     /\ forall c, c ∈ modified d -> key (old c) <> ROOT ->
          Plain (conflict_path c) ∈ conflict_report d)
  /\ (~ has_conflict -> run false w = run true w)
  /\ (keyed -> fst merged <> Raise (Exit 1) ->
        (fst (run false w) = Raise (Exit 1) <-> has_conflict))
  /\ ((exists c, c ∈ modified d /\ key (old c) = []) ->
        run false w = (Raise TypeError, w2))
  /\ (forall t0 w3, merged = (Ok t0, w3) ->
        run true w = (Ok tt, stored_digested tree_md5 t0 w3))
  /\ (forall e w3, merged = (Raise e, w3) -> run true w = (Raise e, w3)).
Proof.
  intros Hrepo H1 H2 HA HB d has_conflict keyed run merged.
  assert (Hrun : forall force,
    run force w =
      bind (if negb force then detect_conflicts _diff A B else ret tt)
        (fun _ =>
           bind (merge None (hash_info A) (hash_info B))
             (fun tree =>
                bind (echo (ObjLine (hash_info (digest tree_md5 tree))))
                  (fun _ => odb_add_tree (digest tree_md5 tree)))) w2).
  { intros force. unfold run.
    apply (merge_tree_loaded oid1 oid2 o1 o2 w w1 w2 A B force); assumption. }
  assert (Hin : has_conflict <-> conflicting d <> []).
  { unfold has_conflict, conflicting. split.
    - intros (c & Hc & Hne) Hnil.
      apply (filter_nil_not_elem_of _ _ c Hnil); auto.
    - intros Hne. destruct (filter _ (modified d)) as [|c l] eqn:E;
        [contradiction|].
      exists c. apply and_comm.
      apply (list_elem_of_filter (fun c : Change => key (old c) <> ROOT)).
      rewrite E. left. }
  assert (Hyes : keyed -> has_conflict ->
    run false w = (Raise (Exit 1), add_stdout (conflict_report d) w2)).
  { intros Hk%Forall_forall Hc%Hin. rewrite Hrun. cbn [negb]. unfold bind at 1.
    rewrite (detect_conflicts_unfold _ _ _ Hk). fold d.
    destruct (conflicting d); [contradiction|reflexivity]. }
  assert (Hno : ~ has_conflict -> run false w = run true w).
  { intros Hc. rewrite !Hrun. cbn [negb]. unfold bind at 1.
    rewrite detect_conflicts_none; [reflexivity|]. fold d.
    destruct (conflicting d) as [|c l] eqn:E; [reflexivity|].
    exfalso. apply Hc, Hin. discriminate. }
  assert (Hforce : run true w =
    match merged with
    | (Ok t0, w3) => (Ok tt, stored_digested tree_md5 t0 w3)
    | (Raise e, w3) => (Raise e, w3)
    end).
  { rewrite Hrun. cbn [negb]. unfold bind at 1. unfold ret at 1.
    apply merge_and_store. }
  split; [|split; [|split; [|split; [|split]]]].
  - intros Hk Hc. split; [exact (Hyes Hk Hc)|].
    intros c Hcm Hne. unfold conflict_report. right.
    apply (list_elem_of_fmap_2 (fun c0 => Plain (conflict_path c0))).
    apply list_elem_of_filter. auto.
  - exact Hno.
  - intros Hk Hm. split.
    + intros Hex. apply Hin. intros Hnil.
      rewrite Hno in Hex by (intros Hc%Hin; contradiction).
      rewrite Hforce in Hex. apply Hm. revert Hex. unfold merged.
      destruct (merge None (hash_info A) (hash_info B) w2) as [[t0|e] w3];
        [discriminate|simpl; intros [= ->]; reflexivity].
    + intros Hc. rewrite (Hyes Hk Hc). reflexivity.
  - intros Hex%Exists_exists. rewrite Hrun. cbn [negb]. unfold bind at 1.
    rewrite (detect_conflicts_type_error _ _ _ Hex). reflexivity.
  - intros t0 w3 Hm. rewrite Hforce, Hm. reflexivity.
  - intros e w3 Hm. rewrite Hforce, Hm. reflexivity.
Qed.

(** *** Patch files *)

Lemma resolve_record_outcome (pf : PathArg) (patch : list application)
    (appl : application) (w : World) :
  resolve_record pf patch appl w
  = if truthy (appl !! "op") && truthy (appl !! "path")
         && is_add_or_modify (appl !! "op")
    then (Raise (resolve_failure pf), w)
    else (Ok tt, w).
Proof.
  unfold resolve_record, resolve_path.
  destruct (truthy (appl !! "op") && truthy (appl !! "path")
            && is_add_or_modify (appl !! "op")); [|reflexivity].
  destruct pf; reflexivity.
Qed.

Lemma resolve_loop_raises (pf : PathArg) (patch l : list application)
    (appl : application) (w : World) :
  appl ∈ l ->
  is_add_or_modify (appl !! "op") = true ->
  truthy (appl !! "path") = true ->
  for_each l (resolve_record pf patch) w = (Raise (resolve_failure pf), w).
Proof.
  intros Hin Hop Hpath. induction l as [|b l IH].
  - apply not_elem_of_nil in Hin. contradiction.
  - simpl. unfold bind. rewrite resolve_record_outcome.
    destruct (truthy (b !! "op") && truthy (b !! "path")
              && is_add_or_modify (b !! "op")) eqn:Eb; [reflexivity|].
    apply elem_of_cons in Hin as [Heq|Hin]; [|auto].
    exfalso. rewrite <- Heq, Hop, Hpath in Eb.
    destruct (appl !! "op") as [op|]; [|discriminate].
    simpl in *. destruct (String.eqb_spec op ""); [subst; discriminate|].
    discriminate.
Qed.

(** Records of the other kinds, and records without a path, pass through
    the loop untouched. *)
Lemma resolve_loop_skips (pf : PathArg) (patch l : list application)
    (w : World) :
  (forall appl, appl ∈ l ->
     is_add_or_modify (appl !! "op") && truthy (appl !! "path") = false) ->
  for_each l (resolve_record pf patch) w = (Ok tt, w).
Proof.
  induction l as [|b l IH]; intros Hall; [reflexivity|].
  simpl. unfold bind. rewrite resolve_record_outcome.
  assert (Hb : truthy (b !! "op") && truthy (b !! "path")
               && is_add_or_modify (b !! "op") = false).
  { specialize (Hall b (list_elem_of_here _ _)).
    destruct (is_add_or_modify (b !! "op")), (truthy (b !! "path")),
      (truthy (b !! "op")); simpl in *; congruence. }
  rewrite Hb. apply IH. intros appl Hin. apply Hall. right. exact Hin.
Qed.

(** X19.  A patch file whose records are all of the other kinds, or lack
    a path, is read without change: [process_patch] returns its records in
    file order, followed by the records of the command-line options. *)
Lemma process_patch_other_kinds
    (pf : PathArg) (kwargs : list (string * list Item))
    (w w1 : World) (text : string) (patch : list application) :
  patch_file_given (Some pf) = Some pf ->
  open_read (path_name pf) w = (Ok text, w1) ->
  json_loads text = Some patch ->
  (forall appl, appl ∈ patch ->
     is_add_or_modify (appl !! "op") && truthy (appl !! "path") = false) ->
  process_patch json_loads (Some pf) kwargs w
  = (Ok (patch ++ records_of_kwargs kwargs)%list, w1).
Proof.
  intros Hpf Hopen Hjson Hall. unfold process_patch.
  rewrite Hpf. unfold bind at 1. unfold bind at 1. rewrite Hopen, Hjson.
  unfold bind at 1. rewrite (resolve_loop_skips pf patch patch w1 Hall).
  reflexivity.
Qed.

(** C6.  When the batch read from a patch file contains an add or modify
    record with a non-empty path, [process_patch] does not return: the
    assignment that should store the resolved path raises, with
    [AttributeError] when the patch file is given as a string (the value
    click passes) and with [TypeError] when it is a path object. *)
Theorem process_patch_add_modify_raises
    (pf : PathArg) (kwargs : list (string * list Item))
    (w w1 : World) (text : string) (patch : list application)
    (appl : application) :
  patch_file_given (Some pf) = Some pf ->
  open_read (path_name pf) w = (Ok text, w1) ->
  json_loads text = Some patch ->
  appl ∈ patch ->
  is_add_or_modify (appl !! "op") = true ->
  truthy (appl !! "path") = true ->
  process_patch json_loads (Some pf) kwargs w = (Raise (resolve_failure pf), w1).
Proof.
  intros Hpf Hopen Hjson Hin Hop Hpath. unfold process_patch.
  rewrite Hpf. unfold bind at 1. unfold bind at 1. rewrite Hopen, Hjson.
  unfold bind at 1.
  rewrite (resolve_loop_raises pf patch patch appl w1 Hin Hop Hpath).
  reflexivity.
Qed.

End Properties.

(** * The statements at work on the example repository *)

(** Merging A and B without force stops at the conflict on x, the change
    of the root entry apart; with force the merged tree, which has the
    entries of B, is shown and stored. *)
Lemma merge_tree_conflict_witness :
  merge_tree Demo.tree_md5 Demo.tree_diff Demo.merge Demo.oidA Demo.oidB false
    Demo.world
  = (Raise (Exit 1),
     add_stdout [Plain "Following files in conflicts:"; Plain "x"] Demo.world)
  /\ merge_tree Demo.tree_md5 Demo.tree_diff Demo.merge Demo.oidA Demo.oidB true
       Demo.world
     = (Ok tt, stored_digested Demo.tree_md5 Demo.treeB Demo.world).
Proof.
  pose (root := mkChange
          (mkTreeEntry true [""] None (Some (Demo.h Demo.oidA)))
          (mkTreeEntry true [""] None (Some (Demo.h Demo.oidB)))).
  pose (x := mkChange
          (mkTreeEntry false ["x"] None (Some (Demo.h "digest1")))
          (mkTreeEntry false ["x"] None (Some (Demo.h "digest2")))).
  assert (E : modified (Demo.tree_diff Demo.treeA Demo.treeB (odb Demo.world))
              = [root; x])
    by (vm_compute; reflexivity).
  destruct (merge_tree_conflict Demo.tree_md5 Demo.tree_diff Demo.merge
              Demo.oidA Demo.oidB Demo.oidA Demo.oidB
              Demo.world Demo.world Demo.world
              Demo.treeA Demo.treeB) as (Hc & _ & _ & _ & Hf & _).
  - reflexivity.
  - vm_compute. reflexivity.
  - vm_compute. reflexivity.
  - vm_compute. reflexivity.
  - vm_compute. reflexivity.
  - split.
    + destruct Hc as [Hrun _].
      * intros c Hin. rewrite E in Hin.
        apply elem_of_cons in Hin as [->|Hin]; [discriminate|].
        apply list_elem_of_singleton in Hin. subst c. discriminate.
      * exists x. rewrite E. split; [right; left|discriminate].
      * rewrite Hrun. vm_compute. reflexivity.
    + rewrite (Hf (mkTree Demo.dB ∅ None None) Demo.world)
        by (vm_compute; reflexivity).
      reflexivity.
Defined.

(** Adding foo to the empty tree inserts it; adding it again is refused. *)
Lemma apply_op_add_modify_witness :
  (exists s',
     apply_op Demo.file_md5 Demo.add_foo
       (mkFrame Demo.world TreeOps.empty) = (Ok tt, s')
     /\ _dict (obj s')
        = <[ ["foo"] := (Some Demo.foo_meta, Demo.h "md5-of-abc") ]> ∅
     /\ odb (world s')
        = <["md5-of-abc" := FileObj "abc"]> (odb Demo.world))
  /\ apply_op Demo.file_md5 Demo.add_foo
       (mkFrame Demo.world
          (TreeOps.add ["foo"] None (Demo.h "d0") TreeOps.empty))
     = (Raise (FileExistsError "foo"),
        mkFrame Demo.world
          (TreeOps.add ["foo"] None (Demo.h "d0") TreeOps.empty)).
Proof.
  split.
  - destruct (apply_op_add_modify Demo.file_md5 Demo.add_foo
                (mkFrame Demo.world TreeOps.empty) "foo" "foo")
      as (_ & Hins & _); [reflexivity|reflexivity|].
    apply (Hins Demo.foo_meta "abc"); [reflexivity|].
    left. split; reflexivity.
  - destruct (apply_op_add_modify Demo.file_md5 Demo.add_foo
                (mkFrame Demo.world
                   (TreeOps.add ["foo"] None (Demo.h "d0") TreeOps.empty))
                "foo" "foo")
      as (Hpres & _); [reflexivity|reflexivity|].
    apply Hpres; [reflexivity|]. eexists. reflexivity.
Defined.

(** Moving a/b to a/c re-keys the entry; testing an absent key is refused. *)
Lemma apply_op_remove_move_copy_test_witness :
  (exists s',
     apply_op Demo.file_md5 Demo.move_ab_ac Demo.frame_ab = (Ok tt, s')
     /\ world s' = Demo.world
     /\ _dict (obj s')
        = delete ["a"; "b"]
            (<[ ["a"; "c"] := (None, Demo.h "d1") ]> Demo.d_ab)
     /\ _dict (obj s') !! ["a"; "b"] = None
     /\ (["a"; "c"] <> ["a"; "b"] ->
         _dict (obj s') !! ["a"; "c"] = Some (None, Demo.h "d1")))
  /\ apply_op Demo.file_md5 Demo.test_zz Demo.frame_ab
     = (Raise (FileNotFoundError "zz"), Demo.frame_ab).
Proof.
  split.
  - destruct (apply_op_remove_move_copy_test Demo.file_md5
                Demo.move_ab_ac Demo.frame_ab "move" "a/b")
      as (_ & Hpres); [reflexivity|right; left|reflexivity|].
    destruct (Hpres (None, Demo.h "d1")) as (_ & _ & Hto); [reflexivity|].
    destruct (Hto "a/c") as (_ & Hmove); [reflexivity|].
    apply Hmove. reflexivity.
  - destruct (apply_op_remove_move_copy_test Demo.file_md5
                Demo.test_zz Demo.frame_ab "test" "zz")
      as (Habs & _); [reflexivity|do 3 right; left|reflexivity|].
    apply Habs. reflexivity.
Defined.

(** A patch file with one add record makes [process_patch] raise. *)
Lemma process_patch_add_modify_raises_witness :
  process_patch Demo.json_loads (Some (ArgStr "patch.json")) [] Demo.world
  = (Raise AttributeError, Demo.world).
Proof.
  apply (process_patch_add_modify_raises Demo.json_loads
           (ArgStr "patch.json") [] Demo.world Demo.world
           "one add record" [Demo.add_foo] Demo.add_foo).
  - reflexivity.
  - vm_compute. reflexivity.
  - reflexivity.
  - left.
  - reflexivity.
  - reflexivity.
Defined.

(** Short oids against the two stored digests: an unknown prefix, the
    empty prefix that both digests share, and a prefix of one of them. *)
Lemma from_shortoid_resolution_witness :
  from_shortoid "z" Demo.world
    = (Raise (Exit 1), add_stderr [NotAValidOid "z"] Demo.world)
  /\ from_shortoid "" Demo.world
    = (Raise (Exit 1), add_stderr [AmbiguousOid ""] Demo.world)
  /\ from_shortoid "x" Demo.world = (Ok Demo.oidA, Demo.world).
Proof.
  pose (w := Demo.world).
  assert (Ez : matches (odb w) (requested_oid w "z") = [])
    by (vm_compute; reflexivity).
  assert (Ex : matches (odb w) (requested_oid w "x") = [Demo.oidA])
    by (vm_compute; reflexivity).
  assert (Ee : matches (odb w) (requested_oid w "")
               = [Demo.oidB; Demo.oidA])
    by (vm_compute; reflexivity).
  split; [|split].
  - destruct (from_shortoid_resolution w "z") as (Hnone & _).
    apply Hnone. intros x Hx%elem_of_matches. rewrite Ez in Hx.
    apply not_elem_of_nil in Hx. exact Hx.
  - destruct (from_shortoid_resolution w "") as (_ & Hamb & _).
    apply Hamb. exists Demo.oidA, Demo.oidB.
    split; [discriminate|].
    split; apply elem_of_matches; rewrite Ee; [right; left|left].
  - destruct (from_shortoid_resolution w "x") as (_ & _ & Hone).
    apply Hone.
    + apply elem_of_matches. rewrite Ex. left.
    + intros y Hy%elem_of_matches. rewrite Ex in Hy.
      apply list_elem_of_singleton in Hy. exact Hy.
Defined.

(** Removing a/b from a tree whose index is cached under a name of the
    class's own: the key has left the entries, and the index still returns
    its entry. *)
Lemma apply_op_remove_stale_index_witness :
  exists s',
    apply_op Demo.file_md5 Demo.remove_ab Demo.frame_ab = (Ok tt, s')
    /\ _dict (obj s') !! ["a"; "b"] = None
    /\ fst (TreeOps.query_trie Demo.index_attr (obj s')) !! ["a"; "b"]
       = Some (None, Demo.h "d1").
Proof.
  destruct (apply_op_remove_stale_index Demo.file_md5 Demo.index_attr
              Demo.remove_ab Demo.frame_ab "a/b" Demo.d_ab
              (None, Demo.h "d1"))
    as (s' & Hrun & Hgone & _ & _ & Hstale).
  - reflexivity.
  - reflexivity.
  - reflexivity.
  - reflexivity.
  - reflexivity.
  - exists s'. split; [exact Hrun|]. split; [exact Hgone|].
    apply Hstale. discriminate.
Defined.

(** The merge of A and B, forced, stores the entries of the merged tree
    under their digest, though the tree the merge returns carries none. *)
Lemma digest_before_persist_witness :
  merge_tree Demo.tree_md5 Demo.tree_diff Demo.merge Demo.oidA Demo.oidB true
    Demo.world
  = (Ok tt,
     stored_digested Demo.tree_md5 (mkTree Demo.dB ∅ None None) Demo.world)
  /\ odb (stored_digested Demo.tree_md5 (mkTree Demo.dB ∅ None None) Demo.world)
     = <[Demo.oidB := TreeObj Demo.dB]> (odb Demo.world).
Proof.
  destruct (digest_before_persist Demo.file_md5 Demo.tree_md5 Demo.tree_diff
              Demo.merge) as (_ & Hm & _).
  destruct (Hm Demo.oidA Demo.oidB Demo.oidA Demo.oidB true
              Demo.world Demo.world Demo.world Demo.world
              Demo.treeA Demo.treeB (mkTree Demo.dB ∅ None None))
    as (Hrun & Hodb & _).
  - reflexivity.
  - vm_compute. reflexivity.
  - vm_compute. reflexivity.
  - vm_compute. reflexivity.
  - vm_compute. reflexivity.
  - left. reflexivity.
  - vm_compute. reflexivity.
  - split; [exact Hrun|exact Hodb].
Defined.

(** Moving a/b onto itself leaves the tree without a/b. *)
Lemma apply_op_move_onto_itself_witness :
  exists s',
    apply_op Demo.file_md5 Demo.move_ab_ab Demo.frame_ab = (Ok tt, s')
    /\ _dict (obj s') !! ["a"; "b"] = None
    /\ _dict (obj s') = delete ["a"; "b"] Demo.d_ab.
Proof.
  apply (apply_op_move_onto_itself Demo.file_md5 Demo.move_ab_ab
           Demo.frame_ab "a/b" "a/b" ["a"; "b"]).
  - reflexivity.
  - reflexivity.
  - reflexivity.
  - reflexivity.
  - reflexivity.
  - eexists. reflexivity.
Defined.

(** The loop on a/b: the move is applied, the test of the old key stops
    the batch with [Exit 1], and the remove that follows is not applied. *)
Example apply_patch_stops_at_failure :
  let patch := [Demo.move_ab_ac;
                record_of_item "test" (ItemStr "a/b");
                record_of_item "remove" (ItemStr "a/c")] in
  let out := apply_patch Demo.file_md5 patch Demo.frame_ab in
  fst out = Raise (Exit 1)
  /\ _dict (obj (snd out)) = {[ ["a"; "c"] := (None, Demo.h "d1") ]}
  /\ stderr (world (snd out)) = [ExcLine (FileNotFoundError "a/b")].
Proof. vm_compute. repeat split; reflexivity. Qed.

(** The whole command on tree A: moving x to z stores the new tree under
    the digest of its entries. *)
Example update_tree_moves_x :
  let out := update_tree Demo.file_md5 Demo.tree_md5 Demo.json_loads
               Demo.oidA None [] [] [ItemPair "x" "z"] [] [] [] Demo.world in
  let d' : gmap Key Entry := {[ ["z"] := (None, Demo.h "digest1") ]} in
  fst out = Ok tt
  /\ odb (snd out) !! Demo.tree_md5 d' = Some (TreeObj d')
  /\ stdout (snd out) = [ObjLine (Some (Demo.h (Demo.tree_md5 d')))].
Proof. vm_compute. repeat split; reflexivity. Qed.

(** The whole command with a patch file that holds an add record. *)
Example update_tree_patch_file_add :
  update_tree Demo.file_md5 Demo.tree_md5 Demo.json_loads
    Demo.oidA (Some (ArgStr "patch.json")) [] [] [] [] [] [] Demo.world
  = (Raise AttributeError, Demo.world).
Proof. vm_compute. reflexivity. Qed.

(** The same record given on the command line is applied. *)
Example update_tree_add_option :
  let out := update_tree Demo.file_md5 Demo.tree_md5 Demo.json_loads
               Demo.oidA None [ItemPair "foo" "foo"] [] [] [] [] [] Demo.world in
  let d' : gmap Key Entry :=
    <[ ["foo"] := (Some Demo.foo_meta, Demo.h "md5-of-abc") ]> Demo.dA in
  fst out = Ok tt
  /\ odb (snd out) !! Demo.tree_md5 d' = Some (TreeObj d')
  /\ odb (snd out) !! "md5-of-abc" = Some (FileObj "abc").
Proof. vm_compute. repeat split; reflexivity. Qed.

(** Forced merge of A and B: the merged tree has the entries of B. *)
Example merge_tree_forced :
  let out := merge_tree Demo.tree_md5 Demo.tree_diff Demo.merge
               Demo.oidA Demo.oidB true Demo.world in
  fst out = Ok tt
  /\ stdout (snd out) = [ObjLine (Some (Demo.h Demo.oidB))].
Proof. vm_compute. repeat split; reflexivity. Qed.

(** * Further properties of the commands *)

Section PatchAlgebra.

Variable file_md5 : string -> string.

(** *** Every way [apply_op] returns, and every way it raises *)

Lemma apply_op_ok_inv (a : application) (w : World) (t : Tree) (s' : Frame) :
  apply_op file_md5 a (mkFrame w t) = (Ok tt, s') ->
  exists op path,
    a !! "op" = Some op /\ a !! "path" = Some path
    /\ ((is_add_modify op = true
         /\ exists to m content,
              a !! "to" = Some to
              /\ (op = "add" -> _dict t !! PyStr.split "/" to = None)
              /\ local_fs w !! path = Some (m, content)
              /\ s' = mkFrame
                        (set_odb (insert (file_md5 content) (FileObj content)) w)
                        (TreeOps.add (PyStr.split "/" to) (Some m)
                           (mkHashInfo "md5" (file_md5 content)) t))
        \/ (is_add_modify op = false
            /\ exists e,
                 _dict t !! PyStr.split "/" path = Some e
                 /\ ((op = "test" /\ s' = mkFrame w t)
                     \/ (op = "remove"
                         /\ s' = mkFrame w
                                   (mkTree (delete (PyStr.split "/" path) (_dict t))
                                      (delete "trie" (__dict__ t))
                                      (hash_info t) (fs_path t)))
                     \/ (op = "copy"
                         /\ exists to,
                              a !! "to" = Some to
                              /\ s' = mkFrame w
                                        (TreeOps.add (PyStr.split "/" to)
                                           (fst e) (snd e) t))
                     \/ (op = "move"
                         /\ exists to,
                              a !! "to" = Some to
                              /\ s' = mkFrame w
                                        (mkTree
                                           (delete (PyStr.split "/" path)
                                              (<[PyStr.split "/" to := e]> (_dict t)))
                                           ∅ None None))))).
Proof.
  unfold apply_op.
  destruct (a !! "op") as [op|] eqn:Hop; [|discriminate].
  run.
  destruct (a !! "path") as [path|] eqn:Hpath; simpl; [|discriminate].
  set (keys := PyStr.split "/" path).
  intros H. exists op, path. split; [reflexivity|]. split; [reflexivity|].
  revert H. unfold is_add_modify.
  destruct (String.eqb op "add" || String.eqb op "modify") eqn:Ham; simpl.
  - destruct (a !! "to") as [to|] eqn:Hto; simpl; [|discriminate].
    set (new := PyStr.split "/" to).
    destruct (String.eqb op "add" && in_dict new t) eqn:Hchk; simpl;
      [discriminate|].
    unfold _build, odb_add_file. run.
    destruct (local_fs w !! path) as [[m c]|] eqn:Hfs; simpl; [|discriminate].
    rewrite Hfs. simpl. intros [= <-]. left. split; [reflexivity|].
    exists to, m, c. split; [reflexivity|]. split; [|split; reflexivity].
    intros ->. simpl in Hchk. unfold in_dict in Hchk. fold new.
    destruct (_dict t !! new); [discriminate|reflexivity].
  - unfold in_dict.
    destruct (_dict t !! keys) as [e|] eqn:He; simpl; [|discriminate].
    intros H. right. split; [reflexivity|]. exists e. split; [exact He|].
    revert H.
    destruct (String.eqb_spec op "test") as [->|Hnt]; simpl.
    { intros [= <-]. left. auto. }
    destruct (String.eqb_spec op "remove") as [->|Hnr]; simpl.
    { unfold TreeOps.dict_pop. rewrite He. simpl. intros [= <-].
      right; left. auto. }
    destruct (String.eqb op "copy" || String.eqb op "move") eqn:Hcm; simpl;
      [|discriminate].
    destruct (a !! "to") as [to|] eqn:Hto; simpl; [|discriminate].
    set (new := PyStr.split "/" to).
    unfold TreeOps.get. rewrite He. simpl.
    destruct (String.eqb_spec op "move") as [->|Hnm]; simpl.
    + unfold TreeOps.dict_pop. simpl. fold new.
      assert (Hl : is_Some (<[new := (e.1, e.2)]> (_dict t) !! keys)).
      { destruct (decide (new = keys)) as [->|Hne].
        - rewrite lookup_insert_eq. eauto.
        - rewrite lookup_insert_ne, He by auto. eauto. }
      destruct Hl as [x Hl]. rewrite Hl. simpl. intros [= <-].
      do 3 right. split; [reflexivity|]. exists to. split; [reflexivity|].
      destruct e. reflexivity.
    + intros [= <-]. right; right; left.
      destruct (String.eqb_spec op "copy") as [->|Hnc]; [|discriminate].
      split; [reflexivity|]. exists to. auto.
Qed.

Lemma apply_op_raise_inv (a : application) (w : World) (t : Tree)
    (e : PyExc) (s' : Frame) :
  apply_op file_md5 a (mkFrame w t) = (Raise e, s') ->
  (a !! "op" = None /\ e = AssertionError)
  \/ exists op,
       a !! "op" = Some op
       /\ ((a !! "path" = None /\ e = KeyError "path")
           \/ exists path,
                a !! "path" = Some path
                /\ ((is_add_modify op = true
                     /\ ((a !! "to" = None /\ e = KeyError "to")
                         \/ exists to,
                              a !! "to" = Some to
                              /\ ((op = "add"
                                   /\ is_Some (_dict t !! PyStr.split "/" to)
                                   /\ e = FileExistsError path)
                                  \/ (local_fs w !! path = None
                                      /\ e = FileNotFoundError path))))
                    \/ (is_add_modify op = false
                        /\ ((_dict t !! PyStr.split "/" path = None
                             /\ e = FileNotFoundError path)
                            \/ (is_Some (_dict t !! PyStr.split "/" path)
                                /\ (((op = "copy" \/ op = "move")
                                     /\ a !! "to" = None /\ e = KeyError "to")
                                    \/ (op <> "test" /\ op <> "remove"
                                        /\ op <> "copy" /\ op <> "move"
                                        /\ e = ValueError "unknown op"))))))).
Proof.
  unfold apply_op.
  destruct (a !! "op") as [op|] eqn:Hop; [|intros [= <- _]; left; auto].
  run. intros H. right. exists op. split; [reflexivity|]. revert H.
  destruct (a !! "path") as [path|] eqn:Hpath; simpl;
    [|intros [= <- _]; left; auto].
  intros H. right. exists path. split; [reflexivity|]. revert H.
  set (keys := PyStr.split "/" path). unfold is_add_modify.
  destruct (String.eqb op "add" || String.eqb op "modify") eqn:Ham; simpl.
  - intros H. left. split; [reflexivity|]. revert H.
    destruct (a !! "to") as [to|] eqn:Hto; simpl;
      [|intros [= <- _]; left; auto].
    intros H. right. exists to. split; [reflexivity|]. revert H.
    set (new := PyStr.split "/" to).
    destruct (String.eqb_spec op "add") as [->|Hna]; simpl.
    + unfold in_dict. destruct (_dict t !! new) as [x|] eqn:Hn; simpl.
      * intros [= <- _]. left. eauto.
      * unfold _build, odb_add_file. run.
        destruct (local_fs w !! path) as [[m c]|] eqn:Hfs; simpl.
        -- rewrite Hfs. simpl. discriminate.
        -- intros [= <- _]. right. auto.
    + unfold _build, odb_add_file. run.
      destruct (local_fs w !! path) as [[m c]|] eqn:Hfs; simpl.
      * rewrite Hfs. simpl. discriminate.
      * intros [= <- _]. right. auto.
  - intros H. right. split; [reflexivity|]. revert H.
    unfold in_dict.
    destruct (_dict t !! keys) as [en|] eqn:He; simpl;
      [|intros [= <- _]; left; auto].
    intros H. right. split; [eauto|]. revert H.
    destruct (String.eqb_spec op "test") as [->|Hnt]; simpl; [discriminate|].
    destruct (String.eqb_spec op "remove") as [->|Hnr]; simpl.
    { unfold TreeOps.dict_pop. rewrite He. simpl. discriminate. }
    destruct (String.eqb_spec op "copy") as [->|Hnc]; simpl.
    { destruct (a !! "to") as [to|] eqn:Hto; simpl.
      - unfold TreeOps.get. rewrite He. simpl. discriminate.
      - intros [= <- _]. left. auto. }
    destruct (String.eqb_spec op "move") as [->|Hnm]; simpl.
    { destruct (a !! "to") as [to|] eqn:Hto; simpl.
      - unfold TreeOps.get. rewrite He. simpl.
        unfold TreeOps.dict_pop. simpl.
        destruct (decide (PyStr.split "/" to = keys)) as [Heq|Hne].
        + rewrite Heq, lookup_insert_eq. discriminate.
        + rewrite lookup_insert_ne, He by auto. discriminate.
      - intros [= <- _]. left. auto. }
    intros [= <- _]. right. auto 10.
Qed.

(** X1.  An operation changes at most the keys it names.  Whatever the
    record and whatever the outcome, a key that is neither the key of [to]
    nor, for an op other than add and modify, the key of [path] holds
    after [apply_op] what it held before. *)
Theorem apply_op_other_keys
    (a : application) (s s' : Frame) (r : Res unit) (k : Key) :
  apply_op file_md5 a s = (r, s') ->
  (forall to, a !! "to" = Some to -> k <> PyStr.split "/" to) ->
  (forall op path, a !! "op" = Some op -> is_add_modify op = false ->
     a !! "path" = Some path -> k <> PyStr.split "/" path) ->
  _dict (obj s') !! k = _dict (obj s) !! k.
Proof.
  intros Hrun Hto Hpath. destruct r as [[]|e].
  2: { rewrite (apply_op_raise_unchanged file_md5 _ _ _ _ Hrun). reflexivity. }
  destruct s as [w t].
  destruct (apply_op_ok_inv _ _ _ _ Hrun)
    as (op & path & Hop & Hp & [(Ham & to & m & c & Ht & _ & _ & ->)
                               |(Ham & e & He & Hcases)]).
  - simpl. apply lookup_insert_ne. intros Heq. apply (Hto to Ht). auto.
  - specialize (Hpath op path Hop Ham Hp).
    destruct Hcases as [(_ & ->)|[(_ & ->)|[(_ & to & Ht & ->)|(_ & to & Ht & ->)]]];
      simpl.
    + reflexivity.
    + apply lookup_delete_ne. auto.
    + apply lookup_insert_ne. intros Heq. apply (Hto to Ht). auto.
    + rewrite lookup_delete_ne by auto.
      apply lookup_insert_ne. intros Heq. apply (Hto to Ht). auto.
Qed.

(** X2.  Adding external content under an absent key and then removing
    that key gives back the mapping the tree had; the object the add put
    into the database stays there. *)
Theorem add_then_remove_restores
    (a_add a_rm : application) (w : World) (t : Tree)
    (path to : string) (m : Meta) (content : string) :
  a_add !! "op" = Some "add" -> a_add !! "path" = Some path ->
  a_add !! "to" = Some to ->
  a_rm !! "op" = Some "remove" -> a_rm !! "path" = Some to ->
  _dict t !! PyStr.split "/" to = None ->
  local_fs w !! path = Some (m, content) ->
  exists s',
    for_each [a_add; a_rm] (apply_op file_md5) (mkFrame w t) = (Ok tt, s')
    /\ _dict (obj s') = _dict t
    /\ odb (world s') !! file_md5 content = Some (FileObj content).
Proof.
  intros Hop Hp Hto Hop2 Hp2 Habs Hfs.
  eexists. split.
  - simpl. unfold bind at 1.
    rewrite (apply_op_insert file_md5 a_add w t "add" path to m content);
      auto.
    unfold bind at 1.
    rewrite (apply_op_remove file_md5 a_rm _ _ to
               (Some m, mkHashInfo "md5" (file_md5 content))); auto.
    unfold TreeOps.add. cbn [_dict]. apply lookup_insert_eq.
  - unfold TreeOps.add, set_odb. cbn [obj world _dict odb]. split.
    + rewrite delete_insert_eq. apply delete_id. exact Habs.
    + apply lookup_insert_eq.
Qed.

(** X3.  Moving an entry to an absent key and back gives back the mapping
    the tree had. *)
Theorem move_there_and_back
    (a_go a_back : application) (w : World) (t : Tree)
    (p q : string) (e : Entry) :
  a_go !! "op" = Some "move" -> a_go !! "path" = Some p ->
  a_go !! "to" = Some q ->
  a_back !! "op" = Some "move" -> a_back !! "path" = Some q ->
  a_back !! "to" = Some p ->
  _dict t !! PyStr.split "/" p = Some e ->
  _dict t !! PyStr.split "/" q = None ->
  exists s',
    for_each [a_go; a_back] (apply_op file_md5) (mkFrame w t) = (Ok tt, s')
    /\ _dict (obj s') = _dict t
    /\ world s' = w.
Proof.
  intros Hop Hp Hto Hop2 Hp2 Hto2 He Habs.
  set (kp := PyStr.split "/" p) in *. set (kq := PyStr.split "/" q) in *.
  assert (Hne : kp <> kq) by congruence.
  eexists. split.
  - simpl. unfold bind at 1.
    rewrite (apply_op_move file_md5 a_go w t p q e); auto.
    unfold bind at 1.
    rewrite (apply_op_move file_md5 a_back _ _ q p e); auto.
    cbn [_dict]. fold kp kq. rewrite lookup_delete_ne by auto.
    apply lookup_insert_eq.
  - cbn [obj world _dict]. fold kp kq. split; [|reflexivity].
    apply map_eq. intros k.
    destruct (decide (k = kq)) as [->|Hkq].
    + rewrite lookup_delete_eq. symmetry. exact Habs.
    + rewrite lookup_delete_ne by auto.
      destruct (decide (k = kp)) as [->|Hkp].
      * rewrite lookup_insert_eq. symmetry. exact He.
      * rewrite lookup_insert_ne by auto.
        rewrite lookup_delete_ne by auto.
        rewrite lookup_insert_ne by auto. reflexivity.
Qed.

(** X4.  Copy is idempotent on the entries.  After a copy both keys hold
    the source entry, and the same record applied again returns and
    changes no entry; the world is left alone both times.  Copying an
    entry onto its own key changes no entry either, where a move onto its
    own key deletes it. *)
Theorem copy_idempotent
    (a : application) (w : World) (t : Tree) (path to : string) (e : Entry) :
  a !! "op" = Some "copy" -> a !! "path" = Some path -> a !! "to" = Some to ->
  let keys := PyStr.split "/" path in
  let new := PyStr.split "/" to in
  _dict t !! keys = Some e ->
  exists s1,
    apply_op file_md5 a (mkFrame w t) = (Ok tt, s1)
    /\ world s1 = w
    /\ _dict (obj s1) !! keys = Some e
    /\ _dict (obj s1) !! new = Some e
    /\ (exists s2,
          apply_op file_md5 a s1 = (Ok tt, s2)
          /\ world s2 = w
          /\ _dict (obj s2) = _dict (obj s1))
    /\ (new = keys -> _dict (obj s1) = _dict t).
Proof.
  intros Hop Hp Hto keys new He.
  assert (Hk : <[new := e]> (_dict t) !! keys = Some e).
  { destruct (decide (new = keys)) as [->|Hne].
    - apply lookup_insert_eq.
    - rewrite lookup_insert_ne by auto. exact He. }
  eexists. split; [apply (apply_op_copy file_md5 a w t path to e); auto|].
  unfold TreeOps.add. destruct e as [m h]. cbn [obj world _dict fst snd].
  fold new keys. split; [reflexivity|]. split; [exact Hk|].
  split; [apply lookup_insert_eq|]. split.
  - eexists. split.
    + apply (apply_op_copy file_md5 a w _ path to (m, h)); auto.
    + cbn [obj world _dict fst snd]. fold new. split; [reflexivity|].
      apply insert_insert_eq.
  - intros Heq. rewrite Heq. apply insert_id. exact He.
Qed.

Lemma for_each_app {S A} (l1 l2 : list A) (body : A -> M S unit) (s : S) :
  for_each (l1 ++ l2) body s
  = bind (for_each l1 body) (fun _ => for_each l2 body) s.
Proof.
  revert s. induction l1 as [|x l1 IH]; intros s; [reflexivity|].
  simpl. unfold bind.
  destruct (body x s) as [[u|e] s1]; [|reflexivity].
  rewrite IH. unfold bind. reflexivity.
Qed.

(** X6.  Applying the concatenation of two batches is applying the first
    and then, if it returned, the second: an error in the first batch
    keeps the second from starting. *)
Theorem apply_patch_app (p q : list application) (s : Frame) :
  apply_patch file_md5 (p ++ q) s
  = match apply_patch file_md5 p s with
    | (Ok _, s1) => apply_patch file_md5 q s1
    | (Raise e, s1) => (Raise e, s1)
    end.
Proof. unfold apply_patch. rewrite for_each_app. reflexivity. Qed.

Lemma record_of_pair_fields (op path to : string) :
  record_of_item op (ItemPair path to) !! "op" = Some op
  /\ record_of_item op (ItemPair path to) !! "path" = Some path
  /\ record_of_item op (ItemPair path to) !! "to" = Some to.
Proof.
  unfold record_of_item. repeat split.
Qed.

Lemma record_of_single_fields (op path : string) :
  record_of_item op (ItemStr path) !! "op" = Some op
  /\ record_of_item op (ItemStr path) !! "path" = Some path
  /\ record_of_item op (ItemStr path) !! "to" = None.
Proof.
  unfold record_of_item. repeat split.
Qed.

Lemma apply_patch_well_formed (patch : list application) (s s' : Frame)
    (r : Res unit) :
  Forall well_formed_record patch ->
  apply_patch file_md5 patch s = (r, s') ->
  r = Ok tt \/ r = Raise (Exit 1).
Proof.
  intros Hwf. revert s. induction Hwf as [|a l Ha Hl IH]; intros s.
  - intros [= <- _]. left. reflexivity.
  - unfold apply_patch. simpl. unfold bind at 1. unfold try_except at 1.
    destruct (apply_op file_md5 a s) as [[[]|e0] s1] eqn:Hrun.
    + apply IH.
    + pose proof (apply_op_raise_unchanged file_md5 _ _ _ _ Hrun) as ->.
      destruct s as [w t].
      destruct Ha as (op & path & Hop & Hpath & Hshape).
      destruct (apply_op_raise_inv _ _ _ _ _ Hrun)
        as [(Hnone & _)|(op' & Hop' & Hcases)]; [congruence|].
      assert (op' = op) as -> by congruence.
      destruct Hcases as [(Hnone & _)|(path' & _ & Hcases)]; [congruence|].
      destruct Hcases as [(Ham & [(Hnoto & _)|(to & _ & [(_ & _ & ->)|(_ & ->)])])
                         |(Ham & [(_ & ->)|(_ & [(Hcm & Hnoto & _)|(Ht & Hr & Hc & Hm & _)])])].
      * exfalso. destruct Hshape as [(_ & [x Hx])|Hin]; [congruence|].
        set_unfold in Hin. destruct Hin as [->|[->|[]]]; discriminate.
      * simpl. intros [= <- _]. right. reflexivity.
      * simpl. intros [= <- _]. right. reflexivity.
      * simpl. intros [= <- _]. right. reflexivity.
      * exfalso. destruct Hshape as [(_ & [x Hx])|Hin]; [congruence|].
        set_unfold in Hin. destruct Hcm as [->| ->];
          destruct Hin as [?|[?|[]]]; discriminate.
      * exfalso. destruct Hshape as [(Hin & _)|Hin]; set_unfold in Hin.
        -- destruct Hin as [->|[->|[->|[->|[]]]]]; try congruence;
             discriminate.
        -- destruct Hin as [->|[->|[]]]; congruence.
Qed.

(** X8.  With operations given by command-line options only, each add,
    modify, copy and move a pair and each remove and test a single path as
    click delivers them, the loop of [update_tree] returns or raises
    [Exit 1]: no other exception can leave it. *)
Theorem option_patch_exits
    (add modify move copy remove test : list Item) (s s' : Frame)
    (r : Res unit) :
  Forall (fun i => is_pair i = true) (add ++ modify ++ move ++ copy) ->
  Forall (fun i => is_single i = true) (remove ++ test) ->
  apply_patch file_md5
    (records_of_kwargs
       [("add", add); ("remove", remove); ("modify", modify);
        ("copy", copy); ("move", move); ("test", test)]) s = (r, s') ->
  r = Ok tt \/ r = Raise (Exit 1).
Proof.
  intros Hpairs Hsingles. apply apply_patch_well_formed.
  apply Forall_app in Hsingles as [Hrm Htest].
  apply Forall_app in Hpairs as [Hadd Hpairs].
  apply Forall_app in Hpairs as [Hmod Hpairs].
  apply Forall_app in Hpairs as [Hmove Hcopy].
  assert (Hp : forall op items,
    op ∈ ["add"; "modify"; "copy"; "move"] ->
    Forall (fun i => is_pair i = true) items ->
    Forall well_formed_record (map (record_of_item op) items)).
  { intros op items Hop Hall. apply Forall_fmap.
    eapply Forall_impl; [exact Hall|]. intros [p q|p] Hi; [|discriminate].
    destruct (record_of_pair_fields op p q) as (H1 & H2 & H3).
    exists op, p. split; [exact H1|]. split; [exact H2|]. left. eauto. }
  assert (Hs : forall op items,
    op ∈ ["remove"; "test"] ->
    Forall (fun i => is_single i = true) items ->
    Forall well_formed_record (map (record_of_item op) items)).
  { intros op items Hop Hall. apply Forall_fmap.
    eapply Forall_impl; [exact Hall|]. intros [p q|p] Hi; [discriminate|].
    destruct (record_of_single_fields op p) as (H1 & H2 & H3).
    exists op, p. split; [exact H1|]. split; [exact H2|]. right. exact Hop. }
  unfold records_of_kwargs. simpl. rewrite app_nil_r.
  repeat apply Forall_app_2.
  - apply Hp; [set_solver|exact Hadd].
  - apply Hs; [set_solver|exact Hrm].
  - apply Hp; [set_solver|exact Hmod].
  - apply Hp; [set_solver|exact Hcopy].
  - apply Hp; [set_solver|exact Hmove].
  - apply Hs; [set_solver|exact Htest].
Qed.

End PatchAlgebra.

Section Resolution.

Variable file_md5 : string -> string.
Variable tree_md5 : gmap Key Entry -> string.
Variable _diff : Tree -> Tree -> gmap string Obj -> DiffResult.
Variable json_loads : string -> option (list application).
Variable merge :
  option HashInfo -> option HashInfo -> option HashInfo -> M World Tree.

Lemma after_oid_arg_odb (o : string) (w : World) :
  odb (after_oid_arg o w) = odb w
  /\ stdout (after_oid_arg o w) = stdout w
  /\ local_fs (after_oid_arg o w) = local_fs w
  /\ stderr (after_oid_arg o w) = stderr w.
Proof. unfold after_oid_arg. destruct (String.eqb o "-"); repeat split. Qed.

(** X9.  What a call of [from_shortoid] can have done.  The object
    database, the standard output and the local files are as before.  If
    it returned a digest, that digest is stored, starts with the requested
    short oid and is the only stored digest that does, and nothing was
    written to the standard error; if it raised, it raised [Exit 1] after
    one line on the standard error. *)
Theorem from_shortoid_sound (o : string) (w w' : World) (r : Res string) :
  from_shortoid o w = (r, w') ->
  odb w' = odb w /\ stdout w' = stdout w /\ local_fs w' = local_fs w
  /\ match r with
     | Ok x =>
         hit (odb w) (requested_oid w o) x
         /\ (forall y, hit (odb w) (requested_oid w o) y -> y = x)
         /\ stderr w' = stderr w
     | Raise e =>
         e = Exit 1
         /\ exists line, stderr w' = (stderr w ++ [line])%list
     end.
Proof.
  rewrite from_shortoid_unfold.
  destruct (after_oid_arg_odb o w) as (Ho & Hout & Hfs & Herr).
  destruct (matches (odb w) (requested_oid w o)) as [|x [|y l]] eqn:E;
    intros [= <- <-]; unfold add_stderr; cbn [odb stdout local_fs stderr];
    rewrite ?Ho, ?Hout, ?Hfs, ?Herr;
    (split; [reflexivity|]); (split; [reflexivity|]);
    (split; [reflexivity|]).
  - split; [reflexivity|]. eauto.
  - split; [apply elem_of_matches; rewrite E; left|].
    split; [|reflexivity].
    intros y Hy%elem_of_matches. rewrite E in Hy.
    apply list_elem_of_singleton in Hy. exact Hy.
  - split; [reflexivity|]. eauto.
Qed.

Lemma matches_empty_prefix (store : gmap string Obj) :
  matches store "" = elements (dom store).
Proof.
  unfold matches. induction (elements (dom store)) as [|x l IH];
    [reflexivity|].
  rewrite filter_cons_True by (destruct x; exact I). rewrite IH. reflexivity.
Qed.

(** X10.  The empty short oid is a prefix of every digest: on an empty
    database it is reported as not valid, on a database with one object it
    resolves to that object, and on a database with two or more it is
    reported as ambiguous. *)
Theorem from_shortoid_empty_prefix (w : World) :
  (odb w = ∅ ->
     from_shortoid "" w = (Raise (Exit 1), add_stderr [NotAValidOid ""] w))
  /\ (forall x ob, odb w = {[x := ob]} -> from_shortoid "" w = (Ok x, w))
  /\ (2 <= base.size (odb w) ->
      from_shortoid "" w = (Raise (Exit 1), add_stderr [AmbiguousOid ""] w)).
Proof.
  assert (Hu : from_shortoid "" w =
    match elements (dom (odb w)) with
    | [] => (Raise (Exit 1), add_stderr [NotAValidOid ""] w)
    | [x] => (Ok x, w)
    | _ => (Raise (Exit 1), add_stderr [AmbiguousOid ""] w)
    end).
  { rewrite from_shortoid_unfold.
    change (requested_oid w "") with "". rewrite matches_empty_prefix.
    reflexivity. }
  rewrite Hu. split; [|split].
  - intros ->. rewrite dom_empty_L, elements_empty. reflexivity.
  - intros x ob ->. rewrite dom_singleton_L, elements_singleton. reflexivity.
  - intros Hsize. rewrite <- size_dom in Hsize.
    unfold base.size, set_size in Hsize. simpl in Hsize.
    destruct (elements (dom (odb w))) as [|a [|b l]]; simpl in Hsize;
      [lia|lia|reflexivity].
Qed.

(** X11.  The force flag of [merge_tree] matters only when the diff of
    the two loaded trees has a conflicting change.  For all arguments,
    either the run without force is the run with force, result and world
    alike, or the two oids resolve to stored trees [A] and [B] whose diff
    has a modified change with a non-root key, and the run without force
    ends in the conflict report of the diff of [A] and [B], or in the
    [TypeError] of joining an empty key of that diff. *)
Theorem merge_tree_force_only_on_conflict (oid1 oid2 : string) (w : World) :
  merge_tree tree_md5 _diff merge oid1 oid2 false w
    = merge_tree tree_md5 _diff merge oid1 oid2 true w
  \/ exists o1 o2 w1 w2 A B,
       from_shortoid oid1 w = (Ok o1, w1)
       /\ from_shortoid oid2 w1 = (Ok o2, w2)
       /\ load tree_md5 (mkHashInfo "md5" o1) w2 = (Ok (LTree A), w2)
       /\ load tree_md5 (mkHashInfo "md5" o2) w2 = (Ok (LTree B), w2)
       /\ conflicting (_diff A B (odb w2)) <> []
       /\ (merge_tree tree_md5 _diff merge oid1 oid2 false w
           = (Raise (Exit 1),
              add_stdout (conflict_report (_diff A B (odb w2))) w2)
           \/ merge_tree tree_md5 _diff merge oid1 oid2 false w
              = (Raise TypeError, w2)).
Proof.
  destruct (merge_tree_stages tree_md5 _diff merge oid1 oid2 w)
    as [(e & w' & _ & Hall)
       |(o1 & o2 & w1 & w2 & A & B & Hrepo & H1 & H2 & HA & HB & _)].
  { left. rewrite !Hall. reflexivity. }
  pose proof (merge_tree_loaded tree_md5 _diff merge oid1 oid2 o1 o2 w w1 w2
                A B false Hrepo H1 H2 HA HB) as Hf.
  pose proof (merge_tree_loaded tree_md5 _diff merge oid1 oid2 o1 o2 w w1 w2
                A B true Hrepo H1 H2 HA HB) as Ht.
  cbn [negb] in Hf, Ht. unfold bind at 1 in Hf.
  destruct (detect_conflicts_cases _diff A B w2)
    as [(_ & Hd)|(Hne & [Hd|Hd])]; rewrite Hd in Hf.
  - left. rewrite Hf, Ht. reflexivity.
  - right. exists o1, o2, w1, w2, A, B. auto 10.
  - right. exists o1, o2, w1, w2, A, B. auto 10.
Qed.

Lemma load_tree_digest (h : HashInfo) (w w' : World) (t : Tree) :
  load tree_md5 h w = (Ok (LTree t), w') ->
  w' = w
  /\ odb w !! hvalue h = Some (TreeObj (_dict t))
  /\ tree_hash_info tree_md5 (_dict t) = h
  /\ t = mkTree (_dict t) ∅ (Some h) (Some (_dict t)).
Proof.
  unfold load. run. destruct (odb w !! hvalue h) as [[c|d]|]; try discriminate.
  destruct (decide (tree_hash_info tree_md5 d = h)) as [Hd|]; [|discriminate].
  intros [= <- <-]. simpl. auto.
Qed.

Lemma set_odb_insert_id (w : World) (o : string) (ob : Obj) :
  odb w !! o = Some ob -> set_odb (insert o ob) w = w.
Proof.
  intros H. destruct w. unfold set_odb. simpl in *.
  rewrite insert_id by exact H. reflexivity.
Qed.

(** X12.  [update_tree] without any operation is a no-op on the
    repository: on a short oid that resolves to a stored tree it prints
    the digest the tree already has and leaves the object database as it
    was. *)
Theorem update_tree_no_operation
    (o x : string) (w w1 : World) (t : Tree) :
  repo w = true ->
  from_shortoid o w = (Ok x, w1) ->
  load tree_md5 (mkHashInfo "md5" x) w1 = (Ok (LTree t), w1) ->
  update_tree file_md5 tree_md5 json_loads o None [] [] [] [] [] [] w
  = (Ok tt, add_stdout [ObjLine (Some (mkHashInfo "md5" x))] w1).
Proof.
  intros Hrepo Hres Hload.
  destruct (load_tree_digest _ _ _ _ Hload) as (_ & Hstored & Hdig & Ht).
  simpl in Hstored.
  assert (Hgo : get_odb w = (Ok tt, w)).
  { unfold get_odb. run. rewrite Hrepo. reflexivity. }
  assert (Hget : odb_get x w1 = (Ok (mkHashInfo "md5" x), w1)).
  { unfold odb_get. run. rewrite Hstored. reflexivity. }
  unfold update_tree.
  unfold bind at 1. rewrite Hgo.
  unfold bind at 1. rewrite Hres.
  unfold bind at 1. rewrite Hget.
  unfold bind at 1. rewrite Hload.
  unfold bind at 1. unfold process_patch. simpl.
  unfold with_obj, update_tree_body, apply_patch. run.
  assert (Hx : tree_md5 (_dict t) = x).
  { unfold tree_hash_info in Hdig. injection Hdig as Hx. exact Hx. }
  unfold odb_add_tree, tree_hash_info. simpl. unfold modify.
  rewrite Hx. f_equal. unfold add_stdout, set_odb. simpl.
  rewrite insert_id by exact Hstored. reflexivity.
Qed.

End Resolution.

Section Inspection.

Variable file_md5 : string -> string.
Variable verify : string -> Obj -> bool.
Variable obj_size : Obj -> N.
Variable serialize : gmap Key Entry -> string.
Variable format_count : nat -> N -> string.

(** *** The counting idiom of [count_objects] *)

Lemma deque_one_last {A} (l d : list A) :
  fold_left (PyIter.deque_append 1) l d
  = match last l with
    | Some z => [z]
    | None => d
    end.
Proof.
  revert d. induction l as [|x r IH]; intros d; [reflexivity|].
  simpl fold_left. rewrite IH.
  assert (Hx : PyIter.deque_append 1 d x = [x]).
  { unfold PyIter.deque_append. rewrite length_app. simpl length.
    replace (length d + 1 - 1) with (length d) by lia.
    apply drop_app_length. }
  rewrite Hx. destruct r as [|y r]; [reflexivity|].
  change (last (x :: y :: r)) with (last (y :: r)).
  destruct (last (y :: r)) as [z|] eqn:E; [reflexivity|].
  apply last_None in E. discriminate.
Qed.

Lemma last_enumerate_accumulate (l : list N) (start : nat) (total : N) :
  last (PyIter.enumerate start (PyIter.accumulate_from total l))
  = match l with
    | [] => None
    | _ => Some (start + length l - 1, (total + foldr N.add 0 l)%N)
    end.
Proof.
  revert start total. induction l as [|x r IH]; intros start total;
    [reflexivity|].
  simpl PyIter.accumulate_from. simpl PyIter.enumerate.
  destruct r as [|y r].
  - simpl. f_equal. f_equal; lia.
  - specialize (IH (S start) (total + x)%N).
    change (last ((start, (total + x)%N)
                  :: PyIter.enumerate (S start)
                       (PyIter.accumulate_from (total + x) (y :: r))))
      with (last (PyIter.enumerate (S start)
                    (PyIter.accumulate_from (total + x) (y :: r)))).
    rewrite IH. f_equal. f_equal.
    + simpl length. lia.
    + simpl foldr. lia.
Qed.

Lemma accumulate_from_zero (l : list N) :
  PyIter.accumulate l = PyIter.accumulate_from 0 l.
Proof. destruct l as [|x r]; [reflexivity|]. simpl. reflexivity. Qed.

Lemma count_and_total_spec (sizes : list N) :
  count_and_total sizes = (length sizes, foldr N.add 0%N sizes).
Proof.
  unfold count_and_total, PyIter.deque.
  rewrite deque_one_last, accumulate_from_zero, last_enumerate_accumulate.
  destruct sizes as [|x r]; reflexivity.
Qed.

Lemma map_m_odb_size (oids : list string) (w : World) :
  Forall (fun o => is_Some (odb w !! o)) oids ->
  map_m (odb_size obj_size) oids w
  = (Ok (map (stored_size obj_size (odb w)) oids), w).
Proof.
  induction 1 as [|o r [ob Ho] _ IH]; [reflexivity|].
  simpl. unfold bind at 1. unfold odb_size at 1. run. rewrite Ho. simpl.
  rewrite IH. unfold stored_size at 2. rewrite Ho. reflexivity.
Qed.

Lemma stored_everywhere (store : gmap string Obj) :
  Forall (fun o => is_Some (store !! o)) (elements (dom store)).
Proof.
  apply Forall_forall. intros o Ho. apply elem_of_elements in Ho.
  apply elem_of_dom in Ho. exact Ho.
Qed.

Lemma get_odb_in_repo (w : World) : repo w = true -> get_odb w = (Ok tt, w).
Proof. intros H. unfold get_odb. run. rewrite H. reflexivity. Qed.

(** X13.  Inside a repository [count_objects] prints one line built from
    the number of stored objects and the sum of their sizes, and changes
    nothing else; on an empty database both numbers are zero. *)
Theorem count_objects_total (w : World) :
  repo w = true ->
  count_objects obj_size format_count w
  = (Ok tt,
     add_stdout
       [Plain (format_count (base.size (odb w))
                 (foldr N.add 0%N
                    (map (stored_size obj_size (odb w))
                       (elements (dom (odb w))))))] w)
  /\ (odb w = ∅ ->
      count_objects obj_size format_count w
      = (Ok tt, add_stdout [Plain (format_count 0 0%N)] w)).
Proof.
  intros Hrepo.
  assert (E : count_objects obj_size format_count w
    = (Ok tt,
       add_stdout
         [Plain (format_count (base.size (odb w))
                   (foldr N.add 0%N
                      (map (stored_size obj_size (odb w))
                         (elements (dom (odb w))))))] w)).
  { unfold count_objects. unfold bind at 1.
    rewrite (get_odb_in_repo w Hrepo).
    unfold bind at 1. unfold odb_all at 1. run.
    rewrite (map_m_odb_size _ w (stored_everywhere (odb w))).
    rewrite count_and_total_spec. simpl fst. simpl snd.
    rewrite length_map. rewrite <- size_dom. reflexivity. }
  split; [exact E|].
  intros Hempty. rewrite E, Hempty.
  rewrite dom_empty_L, elements_empty. reflexivity.
Qed.

(** *** [fsck] *)

Lemma add_stdout_nil (w : World) : add_stdout [] w = w.
Proof. destruct w. unfold add_stdout. simpl. rewrite app_nil_r. reflexivity. Qed.

Lemma fsck_loop_spec (oids : list string) (code : Z) (w : World) :
  Forall (fun o => is_Some (odb w !! o)) oids ->
  fsck_loop verify oids code w
  = (Ok (if decide (failing verify (odb w) oids = []) then code else 1%Z),
     add_stdout
       (map (fun _ => ExcLine ObjectFormatError) (failing verify (odb w) oids))
       w).
Proof.
  intros Hall. revert code w Hall.
  induction oids as [|o r IH]; intros code w Hall.
  - simpl. unfold ret. rewrite add_stdout_nil. reflexivity.
  - apply Forall_cons in Hall as [[ob Ho] Hr].
    simpl fsck_loop. unfold bind at 1. unfold fsck_step, odb_check. run.
    rewrite Ho. unfold failing.
    destruct (verify o ob) eqn:Hv; simpl.
    + rewrite filter_cons_False
        by (rewrite Ho; simpl; rewrite Hv; discriminate).
      apply IH. exact Hr.
    + rewrite filter_cons_True by (rewrite Ho; simpl; exact Hv).
      rewrite (IH 1%Z (add_stdout [ExcLine ObjectFormatError] w)) by exact Hr.
      rewrite add_stdout_app. simpl.
      destruct (decide (failing verify (odb w) r = [])); reflexivity.
Qed.

(** X14.  Inside a repository [fsck] always ends in [Exit]: with code 0
    when every stored object passes the integrity check and with code 1
    otherwise.  It goes through the whole database whatever it finds, and
    prints one line for each object that fails. *)
Theorem fsck_exit_code (w : World) :
  repo w = true ->
  let bad := failing verify (odb w) (elements (dom (odb w))) in
  fsck verify w
  = (Raise (Exit (if decide (bad = []) then 0 else 1)),
     add_stdout (map (fun _ => ExcLine ObjectFormatError) bad) w).
Proof.
  intros Hrepo bad. unfold fsck. unfold bind at 1.
  rewrite (get_odb_in_repo w Hrepo).
  unfold bind at 1. unfold odb_all at 1. run.
  rewrite (fsck_loop_spec _ 0%Z w (stored_everywhere (odb w))).
  reflexivity.
Qed.

End Inspection.

Section ReadBack.

Variable file_md5 : string -> string.
Variable verify : string -> Obj -> bool.
Variable serialize : gmap Key Entry -> string.

Lemma prefix_refl (s : string) : String.prefix s s = true.
Proof.
  induction s as [|a s IH]; [reflexivity|]. simpl.
  destruct (ascii_dec a a) as [_|Hne]; [exact IH|contradiction].
Qed.

Lemma requested_oid_plain (w : World) (o : string) :
  o <> "-" -> requested_oid w o = o /\ after_oid_arg o w = w.
Proof.
  intros Hne. unfold requested_oid, after_oid_arg.
  apply String.eqb_neq in Hne. rewrite Hne. auto.
Qed.

(** X15.  An object stored by an add can be read back.  After [apply_op]
    has added the external content at [path], [cat] on the digest of that
    content prints exactly the content, provided no other stored digest
    starts with it. *)
Theorem add_then_cat
    (a : application) (w : World) (t : Tree) (path to : string)
    (m : Meta) (content : string) :
  repo w = true ->
  a !! "op" = Some "add" -> a !! "path" = Some path -> a !! "to" = Some to ->
  _dict t !! PyStr.split "/" to = None ->
  local_fs w !! path = Some (m, content) ->
  file_md5 content <> "-" ->
  (forall y, y ∈ dom (odb w) ->
     PyStr.startswith y (file_md5 content) = true -> y = file_md5 content) ->
  exists s',
    apply_op file_md5 a (mkFrame w t) = (Ok tt, s')
    /\ cat verify serialize (file_md5 content) false (world s')
       = (Ok tt, add_stdout [Plain content] (world s')).
Proof.
  intros Hrepo Hop Hp Hto Habs Hfs Hdash Huniq.
  eexists. split.
  - apply (apply_op_insert file_md5 a w t "add" path to m content); auto.
  - cbn [world]. set (x := file_md5 content) in *.
    set (w' := set_odb (insert x (FileObj content)) w).
    destruct (requested_oid_plain w' x Hdash) as (Hreq & Hafter).
    assert (Hhit : hit (odb w') x x).
    { split.
      - unfold w', set_odb. cbn [odb]. apply elem_of_dom.
        rewrite lookup_insert_eq. eauto.
      - apply prefix_refl. }
    assert (Hone : forall y, hit (odb w') x y -> y = x).
    { intros y [Hy Hs]. unfold w', set_odb in Hy. cbn [odb] in Hy.
      rewrite dom_insert_L in Hy. apply elem_of_union in Hy as [Hy|Hy].
      - apply elem_of_singleton in Hy. exact Hy.
      - apply Huniq; assumption. }
    unfold cat. unfold bind at 1.
    rewrite (get_odb_in_repo w') by exact Hrepo.
    unfold bind at 1. rewrite from_shortoid_unfold, Hreq, Hafter.
    rewrite (matches_unique _ _ _ Hhit Hone).
    unfold _cat_object. run. rewrite lookup_insert_eq. reflexivity.
Qed.

(** X16.  [rm] removes exactly the object its argument resolves to.  A run
    that returns has deleted the one stored digest that starts with the
    requested short oid and nothing else; a run that raises, because the
    short oid is unknown or ambiguous or there is no repository, has left
    the object database as it was. *)
Theorem rm_removes_resolved (o : string) (w : World) :
  match rm o w with
  | (Ok _, w') =>
      exists x,
        hit (odb w) (requested_oid w o) x
        /\ (forall y, hit (odb w) (requested_oid w o) y -> y = x)
        /\ odb w' = delete x (odb w)
        /\ stdout w' = stdout w /\ stderr w' = stderr w
  | (Raise e, w') => odb w' = odb w /\ (e = Exit 1 \/ e = Abort)
  end.
Proof.
  unfold rm. unfold bind at 1. unfold get_odb at 1. run.
  destruct (repo w) eqn:Hrepo; simpl; [|auto].
  rewrite from_shortoid_unfold.
  destruct (after_oid_arg_odb o w) as (Ho & Hout & _ & Herr).
  destruct (matches (odb w) (requested_oid w o)) as [|x [|y l]] eqn:E; simpl.
  - rewrite Ho. auto.
  - assert (Hhit : hit (odb w) (requested_oid w o) x).
    { apply elem_of_matches. rewrite E. left. }
    rewrite Ho. destruct Hhit as [Hdom Hs].
    pose proof Hdom as Hin. apply elem_of_dom in Hin as [ob Hob].
    rewrite Hob. simpl. exists x. rewrite Ho, Hout, Herr.
    split; [split; assumption|]. split; [|auto].
    intros z Hz%elem_of_matches. rewrite E in Hz.
    apply list_elem_of_singleton in Hz. exact Hz.
  - rewrite Ho. auto.
Qed.

(** *** [_prepare_info] *)

Lemma join_step_empty (path b : string) :
  PyStr.join_step path b = "" <-> path = "" /\ b = "".
Proof.
  unfold PyStr.join_step, PyStr.startswith. split.
  - destruct (String.prefix "/" b) eqn:Hp.
    + intros ->. simpl in Hp. discriminate Hp.
    + destruct (String.eqb_spec path "") as [->|Hne]; cbn [orb].
      * intros H. change (b = "") in H. auto.
      * destruct (PyStr.endswith_char path "/"); intros H;
          (destruct path as [|d path]; [contradiction|];
           cbv [String.append] in H; discriminate H).
  - intros [-> ->]. reflexivity.
Qed.

Lemma fold_join_empty (p : list string) (a : string) :
  fold_left PyStr.join_step p a = "" <-> a = "" /\ Forall (fun seg => seg = "") p.
Proof.
  revert a. induction p as [|b p IH]; intros a; simpl.
  - split; [auto|]. intros [-> _]. reflexivity.
  - rewrite IH, join_step_empty. split.
    + intros [[-> ->] Hp]. auto.
    + intros [-> Hall]. apply Forall_cons in Hall as [-> Hp]. auto.
Qed.

Lemma posixpath_join_empty (k : Key) :
  PyStr.posixpath_join k = Some ""
  <-> k <> [] /\ Forall (fun seg => seg = "") k.
Proof.
  destruct k as [|a p]; simpl.
  - split; [discriminate|]. intros [H _]. contradiction.
  - split.
    + intros [= H]. apply fold_join_empty in H as [-> Hp].
      split; [discriminate|]. constructor; auto.
    + intros [_ Hall]. apply Forall_cons in Hall as [-> Hp].
      f_equal. apply fold_join_empty. auto.
Qed.

(** X17.  The path [_prepare_info] shows for an entry that has an oid.  A
    key without segments cannot be joined and raises [TypeError]; a key
    whose segments are all empty is shown as ROOT; every other key is
    shown as its joined path, which is not empty. *)
Theorem prepare_info_path (entry : TreeEntry) (h : HashInfo) :
  oid entry = Some h ->
  let tail := " (" ++ shown_oid (hvalue h)
              ++ (if in_cache entry then "" else ", missing") ++ ")" in
  (key entry = [] -> _prepare_info entry = Raise TypeError)
  /\ (key entry <> [] -> Forall (fun seg => seg = "") (key entry) ->
      _prepare_info entry = Ok ("ROOT" ++ tail))
  /\ (forall joined,
        PyStr.posixpath_join (key entry) = Some joined ->
        ~ Forall (fun seg => seg = "") (key entry) ->
        joined <> "" /\ _prepare_info entry = Ok (joined ++ tail)).
Proof.
  intros Hoid tail. unfold _prepare_info. rewrite Hoid. split; [|split].
  - intros ->. reflexivity.
  - intros Hne Hall.
    rewrite (proj2 (posixpath_join_empty (key entry)) (conj Hne Hall)).
    reflexivity.
  - intros joined Hj Hnot. rewrite Hj.
    assert (Hne : joined <> "").
    { intros ->. apply posixpath_join_empty in Hj as [_ Hall]. auto. }
    split; [exact Hne|].
    apply String.eqb_neq in Hne. rewrite Hne. reflexivity.
Qed.

Lemma take_chars_prefix (n : nat) (s : string) :
  String.prefix (PyText.take_chars n s) s = true.
Proof.
  unfold PyText.take_chars. revert s. induction n as [|n IH]; intros s.
  - destruct s; reflexivity.
  - destruct s as [|a s]; [reflexivity|]. simpl.
    destruct (ascii_dec a a) as [_|Hne]; [apply IH|contradiction].
Qed.

Lemma take_chars_length (n : nat) (s : string) :
  String.length (PyText.take_chars n s) <= n.
Proof.
  unfold PyText.take_chars. revert s. induction n as [|n IH]; intros s.
  - destruct s; simpl; lia.
  - destruct s as [|a s]; simpl; [lia|]. specialize (IH s). lia.
Qed.

(** X18.  The oid the diff command shows can be given back to the other
    commands.  It is the whole oid or its first nine characters at most,
    and for a stored object it always resolves: [from_shortoid] on the
    shown oid returns that object, or reports the oid as ambiguous when
    another stored digest shares it, but never as not valid. *)
Theorem shown_oid_resolves (w : World) (v : string) :
  v ∈ dom (odb w) ->
  shown_oid v <> "-" ->
  (String.length (shown_oid v) <= 9 \/ shown_oid v = v)
  /\ (from_shortoid (shown_oid v) w = (Ok v, w)
      \/ from_shortoid (shown_oid v) w
         = (Raise (Exit 1), add_stderr [AmbiguousOid (shown_oid v)] w)).
Proof.
  intros Hv Hdash. split.
  - unfold shown_oid. destruct (negb (PyText.endswith v ".dir")).
    + left. apply take_chars_length.
    + right. reflexivity.
  - assert (Hpre : PyStr.startswith v (shown_oid v) = true).
    { unfold PyStr.startswith, shown_oid.
      destruct (negb (PyText.endswith v ".dir")).
      - apply take_chars_prefix.
      - apply prefix_refl. }
    rewrite from_shortoid_unfold.
    destruct (requested_oid_plain w (shown_oid v) Hdash) as (-> & ->).
    assert (Hin : v ∈ matches (odb w) (shown_oid v)).
    { apply elem_of_matches. split; assumption. }
    destruct (matches (odb w) (shown_oid v)) as [|x [|y l]].
    + apply not_elem_of_nil in Hin. contradiction.
    + apply list_elem_of_singleton in Hin. subst x. left. reflexivity.
    + right. reflexivity.
Qed.

End ReadBack.

Section Paths.

(** *** Keys and the paths they are shown as *)

Lemma append_cons (a : ascii) (x y : string) :
  String a x +:+ y = String a (x +:+ y).
Proof. reflexivity. Qed.

Lemma append_assoc (x y z : string) : (x +:+ y) +:+ z = x +:+ (y +:+ z).
Proof.
  induction x as [|a x IH]; [reflexivity|].
  rewrite !append_cons, IH. reflexivity.
Qed.

Lemma split_cons (c : ascii) (r : string) :
  PyStr.split "/" (String c r)
  = if Ascii.eqb c "/" then "" :: PyStr.split "/" r
    else match PyStr.split "/" r with
         | h :: t => String c h :: t
         | [] => [String c ""]
         end.
Proof. reflexivity. Qed.

Lemma split_not_nil (p : string) : PyStr.split "/" p <> [].
Proof.
  induction p as [|c r IH]; [discriminate|]. rewrite split_cons.
  destruct (Ascii.eqb c "/"); [discriminate|].
  destruct (PyStr.split "/" r); [contradiction|discriminate].
Qed.

Lemma segments_no_slash (p seg : string) :
  seg ∈ PyStr.split "/" p ->
  String.prefix "/" seg = false /\ PyStr.endswith_char seg "/" = false.
Proof.
  revert seg. induction p as [|c r IH]; intros seg.
  - intros Hin%list_elem_of_singleton. subst. auto.
  - rewrite split_cons. destruct (Ascii.eqb_spec c "/") as [->|Hne].
    + intros [->|Hin]%elem_of_cons; [auto|]. apply IH. exact Hin.
    + pose proof (split_not_nil r) as Hnn.
      destruct (PyStr.split "/" r) as [|h t]; [contradiction|].
      intros [->|Hin]%elem_of_cons.
      * destruct (IH h (list_elem_of_here _ _)) as [Hp He]. split.
        -- cbn -[ascii_dec]. destruct (ascii_dec "/" c) as [Heq|_];
             [|reflexivity].
           exfalso. apply Hne. symmetry. exact Heq.
        -- simpl. destruct h as [|b h].
           ++ apply Ascii.eqb_neq. exact Hne.
           ++ exact He.
      * apply IH. right. exact Hin.
Qed.

Lemma endswith_char_app (x b : string) (c : ascii) :
  b <> "" -> PyStr.endswith_char (x +:+ b) c = PyStr.endswith_char b c.
Proof.
  intros Hb. induction x as [|a x IH]; [reflexivity|].
  rewrite append_cons. simpl. destruct (x +:+ b) as [|d s] eqn:E.
  - destruct x; [|rewrite append_cons in E; discriminate E].
    change (b = "") in E. contradiction.
  - exact IH.
Qed.

Lemma fold_join_segments (segs : list string) (a : string) :
  a <> "" -> PyStr.endswith_char a "/" = false ->
  Forall (fun seg => seg <> "" /\ String.prefix "/" seg = false
                     /\ PyStr.endswith_char seg "/" = false) segs ->
  fold_left PyStr.join_step segs a
  = fold_left (fun acc seg => acc +:+ "/" +:+ seg) segs a.
Proof.
  intros Ha He Hall. revert a Ha He.
  induction Hall as [|b segs (Hb & Hp & Hbe) _ IH]; intros a Ha He;
    [reflexivity|].
  simpl fold_left.
  assert (Hstep : PyStr.join_step a b = a +:+ "/" +:+ b).
  { unfold PyStr.join_step, PyStr.startswith. rewrite Hp, He.
    apply String.eqb_neq in Ha. rewrite Ha. reflexivity. }
  rewrite Hstep. apply IH.
  - destruct a; [congruence|discriminate].
  - rewrite endswith_char_app.
    + rewrite endswith_char_app by exact Hb. exact Hbe.
    + destruct b; [congruence|discriminate].
Qed.

Lemma fold_concat (segs : list string) (a : string) :
  fold_left (fun acc seg => acc +:+ "/" +:+ seg) segs a
  = String.concat "/" (a :: segs).
Proof.
  revert a. induction segs as [|b segs IH]; intros a; [reflexivity|].
  simpl fold_left. rewrite IH.
  change (String.concat "/" (a :: b :: segs))
    with (a +:+ "/" +:+ String.concat "/" (b :: segs)).
  destruct segs as [|c segs].
  - reflexivity.
  - change (String.concat "/" ((a +:+ "/" +:+ b) :: c :: segs))
      with ((a +:+ "/" +:+ b) +:+ "/" +:+ String.concat "/" (c :: segs)).
    change (String.concat "/" (b :: c :: segs))
      with (b +:+ "/" +:+ String.concat "/" (c :: segs)).
    rewrite !append_assoc. reflexivity.
Qed.

Lemma concat_split (p : string) : String.concat "/" (PyStr.split "/" p) = p.
Proof.
  induction p as [|c r IH]; [reflexivity|]. rewrite split_cons.
  pose proof (split_not_nil r) as Hnn.
  destruct (Ascii.eqb_spec c "/") as [->|Hne].
  - destruct (PyStr.split "/" r) as [|h t]; [contradiction|].
    change (String.concat "/" ("" :: h :: t))
      with ("" +:+ "/" +:+ String.concat "/" (h :: t)).
    rewrite IH. reflexivity.
  - destruct (PyStr.split "/" r) as [|h t]; [contradiction|].
    destruct t as [|h' t].
    + simpl in IH. subst h. reflexivity.
    + change (String.concat "/" (String c h :: h' :: t))
        with (String c (h +:+ "/" +:+ String.concat "/" (h' :: t))).
      change (String.concat "/" (h :: h' :: t))
        with (h +:+ "/" +:+ String.concat "/" (h' :: t)) in IH.
      rewrite IH. reflexivity.
Qed.

(** X20.  The key [apply_op] builds from a path and the path the commands
    show for a key are inverse to each other on clean paths: if no segment
    of [path] is empty, joining the split path gives [path] back.  An
    empty segment breaks the round trip: the key of /a is shown as a. *)
Theorem join_split_path (path : string) :
  (Forall (fun seg => seg <> "") (PyStr.split "/" path) ->
   PyStr.posixpath_join (PyStr.split "/" path) = Some path)
  /\ PyStr.posixpath_join (PyStr.split "/" "/a") = Some "a".
Proof.
  split; [|reflexivity].
  intros Hall. pose proof (concat_split path) as Hc.
  pose proof (segments_no_slash path) as Hns.
  destruct (PyStr.split "/" path) as [|a segs] eqn:E.
  - exfalso. eapply split_not_nil. exact E.
  - unfold PyStr.posixpath_join. f_equal.
    apply Forall_cons in Hall as [Ha Hsegs].
    rewrite fold_join_segments.
    + rewrite fold_concat. exact Hc.
    + exact Ha.
    + apply Hns. left.
    + apply Forall_forall. intros seg Hin.
      split; [exact (proj1 (Forall_forall _ _) Hsegs seg Hin)|].
      apply Hns. right. exact Hin.
Qed.

End Paths.

(** * The further statements at work on the example repository *)

Lemma apply_op_other_keys_witness :
  _dict (obj (snd (apply_op Demo.file_md5 Tour.move_x_z
                     (mkFrame Demo.world Demo.treeB)))) !! ["y"]
  = Demo.dB !! ["y"].
Proof.
  apply (apply_op_other_keys Demo.file_md5 Tour.move_x_z
           (mkFrame Demo.world Demo.treeB)
           (snd (apply_op Demo.file_md5 Tour.move_x_z
                   (mkFrame Demo.world Demo.treeB)))
           (fst (apply_op Demo.file_md5 Tour.move_x_z
                   (mkFrame Demo.world Demo.treeB)))).
  - apply surjective_pairing.
  - intros to Hto.
    assert (E : Tour.move_x_z !! "to" = Some "z") by reflexivity.
    rewrite E in Hto. injection Hto as <-. discriminate.
  - intros op path _ _ Hpath.
    assert (E : Tour.move_x_z !! "path" = Some "x") by reflexivity.
    rewrite E in Hpath. injection Hpath as <-. discriminate.
Defined.

Lemma add_then_remove_restores_witness :
  exists s',
    for_each [Demo.add_foo; Tour.remove_foo] (apply_op Demo.file_md5)
      (mkFrame Demo.world TreeOps.empty) = (Ok tt, s')
    /\ _dict (obj s') = _dict TreeOps.empty
    /\ odb (world s') !! Demo.file_md5 "abc" = Some (FileObj "abc").
Proof.
  apply (add_then_remove_restores Demo.file_md5 Demo.add_foo Tour.remove_foo
           Demo.world TreeOps.empty "foo" "foo" Demo.foo_meta "abc");
    reflexivity.
Defined.

Lemma move_there_and_back_witness :
  exists s',
    for_each [Demo.move_ab_ac; Tour.move_ac_ab] (apply_op Demo.file_md5)
      Demo.frame_ab = (Ok tt, s')
    /\ _dict (obj s') = Demo.d_ab
    /\ world s' = Demo.world.
Proof.
  apply (move_there_and_back Demo.file_md5 Demo.move_ab_ac Tour.move_ac_ab
           Demo.world Demo.tree_ab "a/b" "a/c" (None, Demo.h "d1"));
    reflexivity.
Defined.

Lemma copy_idempotent_witness :
  exists s1,
    apply_op Demo.file_md5 Tour.copy_ab_ab Demo.frame_ab = (Ok tt, s1)
    /\ _dict (obj s1) = Demo.d_ab
    /\ exists s2,
         apply_op Demo.file_md5 Tour.copy_ab_ab s1 = (Ok tt, s2)
         /\ _dict (obj s2) = _dict (obj s1).
Proof.
  destruct (copy_idempotent Demo.file_md5 Tour.copy_ab_ab Demo.world
              Demo.tree_ab "a/b" "a/b" (None, Demo.h "d1"))
    as (s1 & Hrun & _ & _ & _ & (s2 & Hrun2 & _ & Hd2) & Hsame);
    try reflexivity.
  exists s1. split; [exact Hrun|]. split; [apply Hsame; reflexivity|].
  exists s2. split; [exact Hrun2|exact Hd2].
Defined.

Lemma option_patch_exits_witness :
  let out := apply_patch Demo.file_md5
               (records_of_kwargs
                  [("add", [ItemPair "foo" "a/b"]); ("remove", [ItemStr "zz"]);
                   ("modify", []); ("copy", []); ("move", []); ("test", [])])
               Demo.frame_ab in
  fst out = Ok tt \/ fst out = Raise (Exit 1).
Proof.
  intros out.
  apply (option_patch_exits Demo.file_md5 [ItemPair "foo" "a/b"] [] [] []
           [ItemStr "zz"] [] Demo.frame_ab (snd out)).
  - repeat constructor.
  - repeat constructor.
  - apply surjective_pairing.
Defined.

Lemma from_shortoid_sound_witness :
  hit (odb Demo.world) "x" Demo.oidA
  /\ (forall y, hit (odb Demo.world) "x" y -> y = Demo.oidA).
Proof.
  destruct (from_shortoid_sound "x" Demo.world Demo.world (Ok Demo.oidA))
    as (_ & _ & _ & Hhit & Hone & _).
  - vm_compute. reflexivity.
  - split; [exact Hhit|exact Hone].
Defined.

Lemma from_shortoid_empty_prefix_witness :
  from_shortoid "" Demo.world
  = (Raise (Exit 1), add_stderr [AmbiguousOid ""] Demo.world).
Proof.
  destruct (from_shortoid_empty_prefix Demo.world) as (_ & _ & Htwo).
  apply Htwo. vm_compute. lia.
Defined.

Lemma update_tree_no_operation_witness :
  update_tree Demo.file_md5 Demo.tree_md5 Demo.json_loads
    Demo.oidA None [] [] [] [] [] [] Demo.world
  = (Ok tt, add_stdout [ObjLine (Some (Demo.h Demo.oidA))] Demo.world).
Proof.
  apply (update_tree_no_operation Demo.file_md5 Demo.tree_md5 Demo.json_loads
           Demo.oidA Demo.oidA Demo.world Demo.world Demo.treeA).
  - reflexivity.
  - vm_compute. reflexivity.
  - vm_compute. reflexivity.
Defined.

Lemma count_objects_total_witness :
  count_objects Tour.obj_size Tour.format_count Demo.world
  = (Ok tt, add_stdout [Plain "2 objects, 36 size"] Demo.world).
Proof.
  destruct (count_objects_total Tour.obj_size Tour.format_count Demo.world)
    as (E & _); [reflexivity|].
  rewrite E. vm_compute. reflexivity.
Defined.

Lemma fsck_exit_code_witness :
  fsck Tour.verify Tour.corrupt_world
  = (Raise (Exit 1),
     add_stdout [ExcLine ObjectFormatError] Tour.corrupt_world)
  /\ fsck Tour.verify Demo.world = (Raise (Exit 0), Demo.world).
Proof.
  split.
  - rewrite (fsck_exit_code Tour.verify Tour.corrupt_world) by reflexivity.
    vm_compute. reflexivity.
  - rewrite (fsck_exit_code Tour.verify Demo.world) by reflexivity.
    vm_compute. reflexivity.
Defined.

Lemma add_then_cat_witness :
  exists s',
    apply_op Demo.file_md5 Demo.add_foo (mkFrame Demo.world TreeOps.empty)
      = (Ok tt, s')
    /\ cat Tour.verify Tour.serialize (Demo.file_md5 "abc") false (world s')
       = (Ok tt, add_stdout [Plain "abc"] (world s')).
Proof.
  apply (add_then_cat Demo.file_md5 Tour.verify Tour.serialize Demo.add_foo
           Demo.world TreeOps.empty "foo" "foo" Demo.foo_meta "abc");
    try reflexivity.
  - discriminate.
  - intros y Hy Hs. apply elem_of_elements in Hy.
    assert (E : elements (dom (odb Demo.world)) = [Demo.oidB; Demo.oidA])
      by (vm_compute; reflexivity).
    rewrite E in Hy.
    apply elem_of_cons in Hy as [->|Hy]; [discriminate Hs|].
    apply list_elem_of_singleton in Hy. subst y. discriminate Hs.
Defined.

Lemma prepare_info_path_witness :
  _prepare_info Tour.root_entry = Ok "ROOT (012345678, missing)".
Proof.
  destruct (prepare_info_path Tour.root_entry (Demo.h "0123456789abcdef"))
    as (_ & Hroot & _); [reflexivity|].
  apply Hroot; [discriminate|]. repeat constructor.
Defined.

Lemma shown_oid_resolves_witness :
  from_shortoid (shown_oid Demo.oidA) Demo.world = (Ok Demo.oidA, Demo.world)
  \/ from_shortoid (shown_oid Demo.oidA) Demo.world
     = (Raise (Exit 1), add_stderr [AmbiguousOid (shown_oid Demo.oidA)] Demo.world).
Proof.
  destruct (shown_oid_resolves Demo.world Demo.oidA) as (_ & H).
  - apply elem_of_elements.
    assert (E : elements (dom (odb Demo.world)) = [Demo.oidB; Demo.oidA])
      by (vm_compute; reflexivity).
    rewrite E. right. left.
  - vm_compute. discriminate.
  - exact H.
Defined.

Lemma process_patch_other_kinds_witness :
  process_patch Tour.json_loads (Some (ArgStr "patch.json"))
    [("test", [ItemStr "zz"])] Demo.world
  = (Ok [Demo.remove_ab; Demo.move_ab_ac; Demo.test_zz], Demo.world).
Proof.
  apply (process_patch_other_kinds Tour.json_loads (ArgStr "patch.json")
           [("test", [ItemStr "zz"])] Demo.world Demo.world
           "one add record" [Demo.remove_ab; Demo.move_ab_ac]).
  - reflexivity.
  - vm_compute. reflexivity.
  - reflexivity.
  - intros appl Hin.
    apply elem_of_cons in Hin as [->|Hin]; [reflexivity|].
    apply list_elem_of_singleton in Hin. subst appl. reflexivity.
Defined.

Lemma join_split_path_witness :
  PyStr.posixpath_join (PyStr.split "/" "a/b") = Some "a/b".
Proof.
  destruct (join_split_path "a/b") as (H & _). apply H.
  repeat constructor; discriminate.
Defined.
